(** * sketch.io: a shallow embedding of [app.py]

    The Flask application keeps two SQLite tables (users, conversations)
    and exposes a registration form and three JSON endpoints.  The
    handlers are embedded as pure functions over an explicit database
    state; Python exceptions are values of an error type; text is a list
    of Unicode code points and binary data a list of bytes. *)

From Stdlib Require Import List NArith ZArith Bool Lia String Ascii.
From Stdlib Require Import Permutation Sorted.
From Stdlib.Strings Require Byte.
Import ListNotations.

Local Open Scope N_scope.

(* ================================================================= *)
(** ** Python values: text, bytes, exceptions *)

Module Py.

(** A Python [str] is a sequence of code points. *)
Definition str := list N.

(** A Python [bytes] object. *)
Definition bytes := list Byte.byte.

(** Text literals of the source, written as Rocq strings. *)
Definition lit (s : string) : str :=
  List.map N_of_ascii (list_ascii_of_string s).
Arguments lit s%_string.

(** [ord(c)] for a character literal. *)
Definition ord (c : ascii) : N := N_of_ascii c.
Arguments ord c%_char.

Definition str_eqb (a b : str) : bool :=
  if list_eq_dec N.eq_dec a b then true else false.

(** The exceptions the handlers can meet. *)
Inductive exn : Type :=
| ValueError        (* unpacking a list of the wrong length, non-ASCII text *)
| IndexError        (* list index out of range *)
| AttributeError    (* method looked up on a value that has none *)
| BinasciiError     (* binascii.Error, raised by the base64 decoder *)
| IntegrityError.   (* sqlite3.IntegrityError *)

Inductive exc (A : Type) : Type :=
| Ok (a : A)
| Raise (e : exn).
Arguments Ok {A} a.
Arguments Raise {A} e.

Definition bind {A B} (m : exc A) (k : A -> exc B) : exc B :=
  match m with
  | Ok a => k a
  | Raise e => Raise e
  end.

(** [str.isspace] for one code point: the Unicode white space set that
    [str.strip()] removes when called without argument. *)
Definition isspace (c : N) : bool :=
  ((9 <=? c) && (c <=? 13))
  || ((28 <=? c) && (c <=? 32))
  || (c =? 133) || (c =? 160) || (c =? 5760)
  || ((8192 <=? c) && (c <=? 8202))
  || (c =? 8232) || (c =? 8233) || (c =? 8239) || (c =? 8287)
  || (c =? 12288).

Fixpoint lstrip (s : str) : str :=
  match s with
  | [] => []
  | c :: s' => if isspace c then lstrip s' else s
  end.

Definition rstrip (s : str) : str := rev (lstrip (rev s)).

(** [s.strip()] *)
Definition strip (s : str) : str := rstrip (lstrip s).

(** [s.split(sep)] for a one-character separator: every occurrence cuts. *)
Fixpoint split (sep : N) (s : str) : list str :=
  match s with
  | [] => [[]]
  | c :: s' =>
      if c =? sep then [] :: split sep s'
      else match split sep s' with
           | p :: ps => (c :: p) :: ps
           | [] => [[c]]
           end
  end.

(** [s.split(sep, 1)]: only the first occurrence cuts. *)
Fixpoint split1 (sep : N) (s : str) : list str :=
  match s with
  | [] => [[]]
  | c :: s' =>
      if c =? sep then [[]; s']
      else match split1 sep s' with
           | p :: ps => (c :: p) :: ps
           | [] => [[c]]
           end
  end.

(** A string that neither starts nor ends with white space. *)
Definition starts_space (s : str) : bool :=
  match s with
  | c :: _ => isspace c
  | [] => false
  end.

Definition trimmed (s : str) : bool :=
  negb (starts_space s) && negb (starts_space (rev s)).

(** Truthiness of a string: [bool(s)]. *)
Definition truthy (s : str) : bool :=
  match s with [] => false | _ :: _ => true end.

(** [x or ""] for an optional string. *)
Definition or_empty (x : option str) : str :=
  match x with Some s => s | None => [] end.

End Py.

(* ================================================================= *)
(** ** The standard library's base64 codec *)

Module Base64.
Import Py.

(** [table_b2a_base64] of binascii. *)
Definition table_b2a_base64 : str :=
  lit "ABCDEFGHIJKLMNOPQRSTUVWXYZabcdefghijklmnopqrstuvwxyz0123456789+/".

Definition BASE64_PAD : N := 61.

Definition b2a (i : N) : N := nth (N.to_nat i) table_b2a_base64 0.

Fixpoint index_of (c : N) (t : str) (i : N) : option N :=
  match t with
  | [] => None
  | x :: t' => if x =? c then Some i else index_of c t' (i + 1)
  end.

(** [table_a2b_base64]: the six-bit value of an alphabet character. *)
Definition a2b (c : N) : option N := index_of c table_b2a_base64 0.

Definition byte_of_N (n : N) : Byte.byte :=
  match Byte.of_N (n mod 256) with
  | Some b => b
  | None => Byte.x00
  end.

(** The four six-bit groups of three bytes [a], [b], [c]. *)
Definition sextet0 (a : N) : N := N.shiftr a 2.
Definition sextet1 (a b : N) : N :=
  N.lor (N.shiftl (N.land a 3) 4) (N.shiftr b 4).
Definition sextet2 (b c : N) : N :=
  N.lor (N.shiftl (N.land b 15) 2) (N.shiftr c 6).
Definition sextet3 (c : N) : N := N.land c 63.

(** [base64.b64encode(s).decode("utf-8")]: three bytes give four
    characters, a short tail is padded with ['=']. *)
Fixpoint b64encode (s : bytes) : str :=
  match s with
  | [] => []
  | [x] =>
      let a := Byte.to_N x in
      [b2a (sextet0 a); b2a (N.shiftl (N.land a 3) 4);
       BASE64_PAD; BASE64_PAD]
  | [x; y] =>
      let a := Byte.to_N x in
      let b := Byte.to_N y in
      [b2a (sextet0 a); b2a (sextet1 a b);
       b2a (N.shiftl (N.land b 15) 2); BASE64_PAD]
  | x :: y :: z :: rest =>
      let a := Byte.to_N x in
      let b := Byte.to_N y in
      let c := Byte.to_N z in
      b2a (sextet0 a) :: b2a (sextet1 a b) :: b2a (sextet2 b c)
      :: b2a (sextet3 c) :: b64encode rest
  end.

Definition emit (b : Byte.byte) (r : exc bytes) : exc bytes :=
  match r with
  | Ok l => Ok (b :: l)
  | Raise e => Raise e
  end.

(** [binascii.a2b_base64] in its default (non-strict) mode.  Characters
    outside the alphabet are skipped; a pad that completes a quad ends
    the decoding; input that stops inside a quad is an error. *)
Fixpoint a2b_base64 (quad_pos pads : nat) (leftchar : N) (data : list N)
  : exc bytes :=
  match data with
  | [] =>
      match quad_pos with
      | O => Ok []
      | _ => Raise BinasciiError
      end
  | this_ch :: rest =>
      if this_ch =? BASE64_PAD then
        if Nat.leb 2 quad_pos then
          if Nat.leb 4 (quad_pos + S pads) then Ok []
          else a2b_base64 quad_pos (S pads) leftchar rest
        else a2b_base64 quad_pos pads leftchar rest
      else
        match a2b this_ch with
        | None => a2b_base64 quad_pos pads leftchar rest
        | Some v =>
            match quad_pos with
            | 0%nat => a2b_base64 1 0 v rest
            | 1%nat =>
                emit (byte_of_N (N.lor (N.shiftl leftchar 2) (N.shiftr v 4)))
                     (a2b_base64 2 0 (N.land v 15) rest)
            | 2%nat =>
                emit (byte_of_N (N.lor (N.shiftl leftchar 4) (N.shiftr v 2)))
                     (a2b_base64 3 0 (N.land v 3) rest)
            | _ =>
                emit (byte_of_N (N.lor (N.shiftl leftchar 6) v))
                     (a2b_base64 0 0 0 rest)
            end
        end
  end.

(** [s.encode("ascii")] inside [base64.b64decode] for a [str] argument. *)
Definition bytes_from_decode_data (s : str) : exc (list N) :=
  if forallb (fun c => c <? 128) s then Ok s else Raise ValueError.

(** [base64.b64decode(s)] *)
Definition b64decode (s : str) : exc bytes :=
  bind (bytes_from_decode_data s) (a2b_base64 0 0 0).

End Base64.

(* ================================================================= *)
(** ** The SQLite store *)

Module Store.
Import Py.

(** A row of [users]; [is_teacher] is the INTEGER column. *)
Record user_row : Type := {
  u_id : Z;
  u_username : str;
  u_password_hash : str;
  u_is_teacher : Z
}.

(** A row of [conversations]. *)
Record conv_row : Type := {
  c_id : Z;
  c_user_id : Z;
  c_prompt : str;
  c_input_image : str;
  c_output_image : str;
  c_model_response_text : str;
  c_created_at : str
}.

(** The database file: both tables in rowid order, each with the last
    id its AUTOINCREMENT key handed out. *)
Record db : Type := {
  users : list user_row;
  users_seq : Z;
  conversations : list conv_row;
  conversations_seq : Z
}.

(** The state [init_db] leaves on a fresh file. *)
Definition empty_db : db :=
  {| users := []; users_seq := 0; conversations := []; conversations_seq := 0 |}.

(** [SELECT COUNT( * ) FROM users] *)
Definition get_user_count (d : db) : Z := Z.of_nat (List.length (users d)).

(** [SELECT * FROM users WHERE id = ?] followed by [fetchone] *)
Definition select_user_by_id (d : db) (id : Z) : option user_row :=
  find (fun r => Z.eqb (u_id r) id) (users d).

(** [INSERT INTO users (username, password_hash, is_teacher)]: the UNIQUE
    constraint on [username] compares the text as stored. *)
Definition insert_user (d : db) (username password_hash : str)
    (is_teacher : Z) : exc db :=
  if existsb (fun r => str_eqb (u_username r) username) (users d)
  then Raise IntegrityError
  else
    let id := (users_seq d + 1)%Z in
    Ok {| users := users d ++ [{| u_id := id;
                                  u_username := username;
                                  u_password_hash := password_hash;
                                  u_is_teacher := is_teacher |}];
          users_seq := id;
          conversations := conversations d;
          conversations_seq := conversations_seq d |}.

(** [INSERT INTO conversations (...)]; returns [cur.lastrowid] too. *)
Definition insert_conversation (d : db) (user_id : Z)
    (prompt input_image output_image model_response_text created_at : str)
  : db * Z :=
  let id := (conversations_seq d + 1)%Z in
  ({| users := users d;
      users_seq := users_seq d;
      conversations :=
        conversations d ++ [{| c_id := id;
                               c_user_id := user_id;
                               c_prompt := prompt;
                               c_input_image := input_image;
                               c_output_image := output_image;
                               c_model_response_text := model_response_text;
                               c_created_at := created_at |}];
      conversations_seq := id |}, id).

(** Ordering of SQLite values in ORDER BY: NULL first, then text by
    code points. *)
Fixpoint text_le (a b : str) : bool :=
  match a, b with
  | [], _ => true
  | _ :: _, [] => false
  | x :: a', y :: b' => (x <? y) || ((x =? y) && text_le a' b')
  end.

Definition sql_le (a b : option str) : bool :=
  match a, b with
  | None, _ => true
  | Some _, None => false
  | Some x, Some y => text_le x y
  end.

Section OrderBy.
Context {A : Type} (key : A -> option str).

Fixpoint insert_by (x : A) (l : list A) : list A :=
  match l with
  | [] => [x]
  | y :: l' => if sql_le (key x) (key y) then x :: l else y :: insert_by x l'
  end.

(** [ORDER BY key ASC] over rows delivered in rowid order; rows with
    equal keys keep that order. *)
Fixpoint order_by (l : list A) : list A :=
  match l with
  | [] => []
  | x :: l' => insert_by x (order_by l')
  end.

(** Two rows in ascending order of their keys. *)
Definition key_le (x y : A) : Prop := sql_le (key x) (key y) = true.

End OrderBy.

End Store.

(* ================================================================= *)
(** ** Requests and responses *)

Module Http.
Import Py.

Inductive http_method : Type := GET | POST.

(** An uploaded file ([werkzeug.datastructures.FileStorage]). *)
Record FileStorage : Type := {
  filename : str;
  mimetype : str;
  content : bytes
}.

(** [bool(file)] is the truthiness of its file name. *)
Definition file_truthy (f : option FileStorage) : bool :=
  match f with
  | Some f => truthy (filename f)
  | None => false
  end.

(** A parsed JSON document, as [request.get_json] returns it. *)
#[local] Unset Elimination Schemes.
Inductive json : Type :=
| JNull
| JBool (b : bool)
| JNum (z : Z)
| JStr (s : str)
| JArr (items : list json)
| JObj (members : list (str * json)).
#[local] Set Elimination Schemes.

(** Truthiness of the Python value a JSON document parses to. *)
Definition json_truthy (v : json) : bool :=
  match v with
  | JNull => false
  | JBool b => b
  | JNum z => negb (Z.eqb z 0)
  | JStr s => truthy s
  | JArr l => match l with [] => false | _ => true end
  | JObj m => match m with [] => false | _ => true end
  end.

(** [d.get(k)] on the members of an object; a repeated key keeps its
    last value. *)
Fixpoint members_get (k : str) (m : list (str * json)) : option json :=
  match m with
  | [] => None
  | (k', v) :: m' =>
      match members_get k m' with
      | Some w => Some w
      | None => if str_eqb k' k then Some v else None
      end
  end.

(** [data.get(k)]: only a dict has the method; a missing key gives [None]. *)
Definition json_get (data : json) (k : str) : exc json :=
  match data with
  | JObj m =>
      match members_get k m with
      | Some v => Ok v
      | None => Ok JNull
      end
  | _ => Raise AttributeError
  end.

Inductive endpoint : Type := ep_login | ep_teacher_panel.

Inductive category : Type := cat_error | cat_success.

(** What the HTML routes answer: a redirect or the registration page,
    with the message flashed on the way. *)
Inductive page_response : Type :=
| Redirect (target : endpoint) (flash : option (str * category))
| RenderRegister (first_user : bool) (flash : option (str * category))
| PageCrash (e : exn).

(** The JSON body both conversation endpoints return. *)
Record conversation_json : Type := {
  id : Z;
  prompt : str;
  inputImage : str;
  outputImage : str;
  modelResponseText : str;
  createdAt : str
}.

(** What the JSON routes answer. *)
Inductive api_response (A : Type) : Type :=
| Json200 (body : A)
| Json400 (error : str)
| Unauthorized            (* login_required sends the caller to the login view *)
| BadRequest              (* get_json could not parse the body *)
| Crash (e : exn).        (* an exception left the handler *)
Arguments Json200 {A} body.
Arguments Json400 {A} error.
Arguments Unauthorized {A}.
Arguments BadRequest {A}.
Arguments Crash {A} e.

Record register_request : Type := {
  reg_method : http_method;
  reg_session : option Z;
  form_username : option str;
  form_password : option str;
  form_is_teacher : option str
}.

Record initial_request : Type := {
  ini_session : option Z;
  files_sketch : option FileStorage;
  form_prompt : option str;
  ini_utcnow : str
}.

Record continue_request : Type := {
  con_session : option Z;
  con_body : option json;
  con_utcnow : str
}.

End Http.

(* ================================================================= *)
(** ** The application *)

Module App.
Import Py Base64 Store Http.

(** [class User(UserMixin)]; the id is kept as the integer that
    [str(id)] and [int(current_user.id)] convert back and forth. *)
Record User : Type := {
  user_id : Z;
  username : str;
  password_hash : str;
  is_teacher : bool
}.

Definition load_user (d : db) (uid : Z) : option User :=
  match select_user_by_id d uid with
  | Some row =>
      Some {| user_id := u_id row;
              username := u_username row;
              password_hash := u_password_hash row;
              is_teacher := negb (Z.eqb (u_is_teacher row) 0) |}
  | None => None
  end.

(** [current_user]: the user the session cookie names, reloaded from the
    store on each request; [None] is the anonymous user. *)
Definition current_user (d : db) (session : option Z) : option User :=
  match session with
  | Some uid => load_user d uid
  | None => None
  end.

(** The dict [generate_image_from_sketch] returns. *)
Record transform_result : Type := {
  image_base64 : str;
  image_mime_type : str;
  text : str
}.

Definition generate_image_from_sketch (image_bytes : bytes)
    (mime_type prompt : str) : transform_result :=
  let encoded := b64encode image_bytes in
  {| image_base64 := encoded;
     image_mime_type := mime_type;
     text := lit "(Stub) Model response for prompt: " ++ prompt |}.

(** [f"data:{mime};base64,{payload}"] *)
Definition data_url (mime payload : str) : str :=
  lit "data:" ++ mime ++ lit ";base64," ++ payload.

Definition flash_forbidden : option (str * category) :=
  Some (lit "Only a teacher can create new accounts.", cat_error).

Definition flash_required : option (str * category) :=
  Some (lit "Username and password are required.", cat_error).

Definition flash_duplicate : option (str * category) :=
  Some (lit "Username already exists. Choose another one.", cat_error).

Definition flash_created (first_user : bool) : option (str * category) :=
  Some (if first_user
        then lit "Account created successfully. You can now log in."
        else lit "Student account created successfully.",
        cat_success).

(** [not current_user.is_authenticated or not current_user.is_teacher] *)
Definition not_a_teacher (cu : option User) : bool :=
  match cu with
  | None => true
  | Some u => negb (is_teacher u)
  end.

(** [request.form.get("is_teacher") == "on"] *)
Definition checkbox_on (v : option str) : bool :=
  match v with
  | Some s => str_eqb s (lit "on")
  | None => false
  end.

Section Handlers.

(** [bcrypt.generate_password_hash(password).decode("utf-8")] *)
Variable generate_password_hash : str -> str.

(** SQLite's [datetime()] of a stored text; NULL when it does not parse. *)
Variable datetime : str -> option str.

Definition register_post (d : db) (first_user : bool)
    (req : register_request) : page_response * db :=
  let username := strip (or_empty (form_username req)) in
  let password := or_empty (form_password req) in
  let is_teacher := checkbox_on (form_is_teacher req) in
  if negb (truthy username) || negb (truthy password) then
    (RenderRegister first_user flash_required, d)
  else
    let is_teacher := if first_user then true else is_teacher in
    let password_hash := generate_password_hash password in
    match insert_user d username password_hash
                      (if is_teacher then 1%Z else 0%Z) with
    | Raise IntegrityError => (RenderRegister first_user flash_duplicate, d)
    | Raise e => (PageCrash e, d)
    | Ok d' =>
        if first_user
        then (Redirect ep_login (flash_created first_user), d')
        else (Redirect ep_teacher_panel (flash_created first_user), d')
    end.

(** [/register] *)
Definition register (d : db) (req : register_request)
  : page_response * db :=
  let user_count := get_user_count d in
  let first_user := Z.eqb user_count 0 in
  if negb first_user && not_a_teacher (current_user d (reg_session req))
  then (Redirect ep_login flash_forbidden, d)
  else
    match reg_method req with
    | POST => register_post d first_user req
    | GET => (RenderRegister first_user None, d)
    end.

Definition row_json (r : conv_row) : conversation_json :=
  {| id := c_id r;
     prompt := c_prompt r;
     inputImage := c_input_image r;
     outputImage := c_output_image r;
     modelResponseText := c_model_response_text r;
     createdAt := c_created_at r |}.

(** The SELECT of [/api/my_history] and of the teacher's per-user view. *)
Definition select_conversations (d : db) (uid : Z) : list conv_row :=
  order_by (fun r => datetime (c_created_at r))
           (filter (fun r => Z.eqb (c_user_id r) uid) (conversations d)).

(** [/api/my_history] *)
Definition api_my_history (d : db) (session : option Z)
  : api_response (list conversation_json) :=
  match current_user d session with
  | None => Unauthorized
  | Some u => Json200 (List.map row_json (select_conversations d (user_id u)))
  end.

(** The row a turn appends. *)
Definition turn_row (d : db) (u : User) (prompt input_data_url : str)
    (result : transform_result) (created_at : str) : conv_row :=
  {| c_id := (conversations_seq d + 1)%Z;
     c_user_id := user_id u;
     c_prompt := prompt;
     c_input_image := input_data_url;
     c_output_image :=
       data_url (image_mime_type result) (image_base64 result);
     c_model_response_text := text result;
     c_created_at := created_at |}.

(** The persisting tail both conversation endpoints share: build the
    output data URL, insert the row, answer with the record. *)
Definition store_turn (d : db) (u : User) (prompt input_data_url : str)
    (result : transform_result) (created_at : str)
  : api_response conversation_json * db :=
  let output_data_url :=
    data_url (image_mime_type result) (image_base64 result) in
  let '(d', convo_id) :=
    insert_conversation d (user_id u) prompt input_data_url output_data_url
                        (text result) created_at in
  (Json200 {| id := convo_id;
              prompt := prompt;
              inputImage := input_data_url;
              outputImage := output_data_url;
              modelResponseText := text result;
              createdAt := created_at |}, d').

(** [sketch_file.mimetype or "image/png"] *)
Definition effective_mime (f : FileStorage) : str :=
  if truthy (mimetype f) then mimetype f else lit "image/png".

(** [/api/initial], over the transform it calls. *)
Definition api_initial_with
    (transform : bytes -> str -> str -> transform_result)
    (d : db) (req : initial_request)
  : api_response conversation_json * db :=
  match current_user d (ini_session req) with
  | None => (Unauthorized, d)
  | Some u =>
      let prompt := strip (or_empty (form_prompt req)) in
      (* [if not sketch_file]: no part of that name, or one whose file
         name is empty *)
      match files_sketch req with
      | None => (Json400 (lit "Missing sketch file"), d)
      | Some sketch_file =>
          if negb (truthy (filename sketch_file)) then
            (Json400 (lit "Missing sketch file"), d)
          else if negb (truthy prompt) then
            (Json400 (lit "Missing prompt"), d)
          else
            let image_bytes := content sketch_file in
            let mime_type := effective_mime sketch_file in
            let result := transform image_bytes mime_type prompt in
            let input_data_url := data_url mime_type (b64encode image_bytes) in
            store_turn d u prompt input_data_url result (ini_utcnow req)
      end
  end.

(** What the [try] block of [/api/continue] does with a string: split
    header and payload at the first comma, take the mime type between
    [':'] and [';']. *)
Definition parse_data_url (s : str) : exc (str * str) :=
  match split1 (ord ",") s with
  | [header; b64data] =>
      match nth_error (split (ord ":") (hd [] (split (ord ";") header))) 1 with
      | Some mime_type => Ok (mime_type, b64data)
      | None => Raise IndexError
      end
  | _ => Raise ValueError
  end.

(** The [try] block on the JSON value received: only a string has
    [split].  The string is handed on with its parts. *)
Definition try_parse (last_image : json) : exc (str * (str * str)) :=
  match last_image with
  | JStr s => bind (parse_data_url s) (fun parts => Ok (s, parts))
  | _ => Raise AttributeError
  end.

(** [(data.get("prompt") or "").strip()] *)
Definition json_prompt (data : json) : exc str :=
  bind (json_get data (lit "prompt")) (fun v =>
    if json_truthy v then
      match v with
      | JStr s => Ok (strip s)
      | _ => Raise AttributeError
      end
    else Ok []).

(** [/api/continue], over the transform it calls. *)
Definition api_continue_with
    (transform : bytes -> str -> str -> transform_result)
    (d : db) (req : continue_request)
  : api_response conversation_json * db :=
  match current_user d (con_session req) with
  | None => (Unauthorized, d)
  | Some u =>
      match con_body req with
      | None => (BadRequest, d)
      | Some body =>
          let data := if json_truthy body then body else JObj [] in
          match json_prompt data with
          | Raise e => (Crash e, d)
          | Ok prompt =>
              match json_get data (lit "lastImage") with
              | Raise e => (Crash e, d)
              | Ok last_image_data_url =>
                  if negb (truthy prompt) then
                    (Json400 (lit "Missing prompt"), d)
                  else if negb (json_truthy last_image_data_url) then
                    (Json400 (lit "Missing lastImage (data URL)"), d)
                  else
                    match try_parse last_image_data_url with
                    | Raise _ => (Json400 (lit "Invalid lastImage data URL"), d)
                    | Ok (last_image, (mime_type, b64data)) =>
                        match b64decode b64data with
                        | Raise e => (Crash e, d)
                        | Ok image_bytes =>
                            let result :=
                              transform image_bytes mime_type prompt in
                            store_turn d u prompt last_image result
                                       (con_utcnow req)
                        end
                    end
              end
          end
      end
  end.

Definition api_initial := api_initial_with generate_image_from_sketch.

Definition api_continue := api_continue_with generate_image_from_sketch.

End Handlers.


End App.

(* ================================================================= *)
(** ** A small run of the application, used for the examples *)

Module Scenario.
Import Py Base64 Store Http App.

(** A stand-in for the password hasher. *)
Definition toy_hash (password : str) : str := lit "$2b$" ++ password.

(** A stand-in for [datetime()]: ISO texts already order as instants. *)
Definition toy_datetime (created_at : str) : option str := Some created_at.

Definition alice_form : register_request :=
  {| reg_method := POST;
     reg_session := None;
     form_username := Some (lit " alice ");
     form_password := Some (lit "wonderland");
     form_is_teacher := None |}.

(** The store once "alice" has registered on the empty database. *)
Definition alice_db : db := snd (register toy_hash empty_db alice_form).

Definition bob_form : register_request :=
  {| reg_method := POST;
     reg_session := Some 1%Z;
     form_username := Some (lit "bob");
     form_password := Some (lit "builder");
     form_is_teacher := None |}.

(** The store once alice has created the student "bob". *)
Definition bob_db : db := snd (register toy_hash alice_db bob_form).

(** Bob asks for a second "bob", and for a "Bob". *)
Definition bob_again_form : register_request :=
  {| reg_method := POST;
     reg_session := Some 1%Z;
     form_username := Some (lit "bob ");
     form_password := Some (lit "other");
     form_is_teacher := Some (lit "on") |}.

Definition capital_bob_form : register_request :=
  {| reg_method := POST;
     reg_session := Some 1%Z;
     form_username := Some (lit "Bob");
     form_password := Some (lit "other");
     form_is_teacher := Some (lit "on") |}.

(** Bob himself, and nobody, try to register "carol". *)
Definition carol_form (session : option Z) : register_request :=
  {| reg_method := POST;
     reg_session := session;
     form_username := Some (lit "carol");
     form_password := Some (lit "secret");
     form_is_teacher := Some (lit "on") |}.

Definition ten_bytes : bytes :=
  [Byte.x89; Byte.x50; Byte.x4e; Byte.x47; Byte.x0d;
   Byte.x0a; Byte.x1a; Byte.x0a; Byte.x00; Byte.x01].

Definition sketch (mime : str) (data : bytes) : FileStorage :=
  {| filename := lit "sketch.png"; mimetype := mime; content := data |}.

Definition draw_request (f : option FileStorage) (p : option str)
  : initial_request :=
  {| ini_session := Some 2%Z;
     files_sketch := f;
     form_prompt := p;
     ini_utcnow := lit "2024-05-01T10:00:00.250000" |}.

Definition cat_request : initial_request :=
  draw_request (Some (sketch (lit "image/png") ten_bytes))
               (Some (lit "draw a cat")).

Definition cat_db : db := snd (api_initial bob_db cat_request).

Definition continue_request_with (session : Z) (p last_image : json)
  : continue_request :=
  {| con_session := Some session;
     con_body := Some (JObj [(lit "prompt", p); (lit "lastImage", last_image)]);
     con_utcnow := lit "2024-05-01T10:00:07" |}.

(** The data URL bob's first call returned. *)
Definition cat_output : str :=
  lit "data:image/png;base64," ++ b64encode ten_bytes.

(** Alice draws too, so that the store holds rows of two owners. *)
Definition alice_request : initial_request :=
  {| ini_session := Some 1%Z;
     files_sketch := Some (sketch [] [Byte.x68; Byte.x69]);
     form_prompt := Some (lit "  a house ");
     ini_utcnow := lit "2024-05-01T09:00:00" |}.

Definition two_owner_db : db :=
  snd (api_continue (snd (api_initial cat_db alice_request))
         (continue_request_with 2 (JStr (lit "now a dog"))
                                (JStr cat_output))).

(** An upload whose declared mime type has a comma in it. *)
Definition comma_request : initial_request :=
  draw_request (Some (sketch (lit "image/png,xy") [Byte.x68; Byte.x69]))
               (Some (lit "draw")).

End Scenario.

(* ================================================================= *)
(** ** Checking a property of bytes on all of them *)

Module Exhaust.

(** The numbers a byte can hold. *)
Definition all_N256 : list N := List.map N.of_nat (seq 0 256).

(** The numbers a six-bit group can hold. *)
Definition all_N64 : list N := List.map N.of_nat (seq 0 64).

Definition pairs_ok (P : N -> N -> bool) : bool :=
  forallb (fun a => forallb (P a) all_N256) all_N256.

End Exhaust.

(* ================================================================= *)
(** ** The HTML routes *)

Module Pages.
Import Py Store Http App.

Inductive route : Type := to_login | to_dashboard | to_teacher_panel.

(** A row of the teacher's roster query. *)
Record roster_row : Type := {
  ro_id : Z;
  ro_username : str;
  ro_is_teacher : Z;
  convo_count : Z
}.

(** The templates, with the values handed to them. *)
Inductive template : Type :=
| login_html (user_count : Z)
| dashboard_html (user : User)
| teacher_html (users : list roster_row)
| teacher_user_html (student : user_row) (conversations : list conv_row).

Inductive site_response : Type :=
| Go (target : route) (flash : option (str * category))
| Page (t : template) (flash : option (str * category))
| LoginRequired.   (* login_required sends the caller to the login view *)

Record login_request : Type := {
  log_method : http_method;
  log_session : option Z;
  log_username : option str;
  log_password : option str
}.

Definition flash_enter_both : option (str * category) :=
  Some (lit "Please enter both username and password.", cat_error).

Definition flash_invalid : option (str * category) :=
  Some (lit "Invalid username or password.", cat_error).

Definition flash_teacher_required : option (str * category) :=
  Some (lit "Teacher access required.", cat_error).

Definition flash_user_not_found : option (str * category) :=
  Some (lit "User not found.", cat_error).

(** [SELECT * FROM users WHERE username = ?] followed by [fetchone] *)
Definition select_user_by_username (d : db) (name : str) : option user_row :=
  find (fun r => str_eqb (u_username r) name) (users d).

(** [/] *)
Definition index (d : db) (session : option Z) : site_response :=
  match current_user d session with
  | Some _ => Go to_dashboard None
  | None => Go to_login None
  end.

(** [/logout]: the answer and the session it leaves. *)
Definition logout (d : db) (session : option Z)
  : site_response * option Z :=
  match current_user d session with
  | None => (LoginRequired, session)
  | Some _ => (Go to_login None, None)
  end.

(** [/dashboard] *)
Definition dashboard (d : db) (session : option Z) : site_response :=
  match current_user d session with
  | None => LoginRequired
  | Some u => Page (dashboard_html u) None
  end.

(** Number of conversation rows of one owner: [COUNT(c.id)] over the
    rows the LEFT JOIN pairs with a user. *)
Definition count_conversations (d : db) (uid : Z) : Z :=
  Z.of_nat
    (List.length (filter (fun c => Z.eqb (c_user_id c) uid) (conversations d))).

(** One group of the roster query; [u.id] is the primary key, so each
    group is one user. *)
Definition roster_entry (d : db) (u : user_row) : roster_row :=
  {| ro_id := u_id u;
     ro_username := u_username u;
     ro_is_teacher := u_is_teacher u;
     convo_count := count_conversations d (u_id u) |}.

(** [ORDER BY u.is_teacher DESC, u.username ASC] *)
Definition roster_le (a b : roster_row) : bool :=
  Z.ltb (ro_is_teacher b) (ro_is_teacher a)
  || (Z.eqb (ro_is_teacher a) (ro_is_teacher b)
      && text_le (ro_username a) (ro_username b)).

Section SortBy.
Context {A : Type} (le : A -> A -> bool).

Fixpoint insert_le (x : A) (l : list A) : list A :=
  match l with
  | [] => [x]
  | y :: l' => if le x y then x :: l else y :: insert_le x l'
  end.

Fixpoint sort_le (l : list A) : list A :=
  match l with
  | [] => []
  | x :: l' => insert_le x (sort_le l')
  end.

End SortBy.

(** The counts of a roster added up. *)
Fixpoint sum_counts (rows : list roster_row) : Z :=
  match rows with
  | [] => 0%Z
  | r :: rows' => (convo_count r + sum_counts rows')%Z
  end.

(** The rows of [cs] owned by the ids [ids], counted id by id. *)
Definition owned_sum (ids : list Z) (cs : list conv_row) : Z :=
  fold_right
    (fun i acc =>
       (Z.of_nat (List.length (filter (fun c => Z.eqb (c_user_id c) i) cs))
        + acc)%Z)
    0%Z ids.

(** The SELECT of [/teacher]. *)
Definition select_roster (d : db) : list roster_row :=
  sort_le roster_le (List.map (roster_entry d) (users d)).

(** [/teacher] *)
Definition teacher_panel (d : db) (session : option Z) : site_response :=
  match current_user d session with
  | None => LoginRequired
  | Some u =>
      if negb (is_teacher u) then Go to_dashboard flash_teacher_required
      else Page (teacher_html (select_roster d)) None
  end.

Section Auth.

(** [bcrypt.check_password_hash(pw_hash, password)] *)
Variable check_password_hash : str -> str -> bool.

(** SQLite's [datetime()], as in the handlers above. *)
Variable datetime : str -> option str.

(** [/login]: the answer and the session it leaves. *)
Definition login (d : db) (req : login_request)
  : site_response * option Z :=
  match current_user d (log_session req) with
  | Some _ => (Go to_dashboard None, log_session req)
  | None =>
      let user_count := get_user_count d in
      match log_method req with
      | POST =>
          let username := strip (or_empty (log_username req)) in
          let password := or_empty (log_password req) in
          if negb (truthy username) || negb (truthy password) then
            (Page (login_html user_count) flash_enter_both, log_session req)
          else
            match select_user_by_username d username with
            | None =>
                (Page (login_html user_count) flash_invalid, log_session req)
            | Some row =>
                if negb (check_password_hash (u_password_hash row) password)
                then
                  (Page (login_html user_count) flash_invalid,
                   log_session req)
                else (Go to_dashboard None, Some (u_id row))
            end
      | GET => (Page (login_html user_count) None, log_session req)
      end
  end.

(** [/teacher/user/<int:user_id>] *)
Definition teacher_user_view (d : db) (session : option Z) (uid : Z)
  : site_response :=
  match current_user d session with
  | None => LoginRequired
  | Some u =>
      if negb (is_teacher u) then Go to_dashboard flash_teacher_required
      else
        match select_user_by_id d uid with
        | None => Go to_teacher_panel flash_user_not_found
        | Some user =>
            Page (teacher_user_html user (select_conversations datetime d uid))
                 None
        end
  end.

End Auth.

End Pages.

(* ================================================================= *)
(** ** Sequences of requests *)

Module Run.
Import Py Store Http App.

(** The requests that can write to the store. *)
Inductive request : Type :=
| Register (r : register_request)
| Initial (r : initial_request)
| Continue (r : continue_request).

Section WithHash.
Variable generate_password_hash : str -> str.

(** The store a request leaves. *)
Definition handle (d : db) (rq : request) : db :=
  match rq with
  | Register r => snd (register generate_password_hash d r)
  | Initial r => snd (api_initial d r)
  | Continue r => snd (api_continue d r)
  end.

(** The store after a sequence of requests, served one after the other
    on a database [init_db] has just created. *)
Definition run (rqs : list request) : db := fold_left handle rqs empty_db.

End WithHash.

(** A conversation request that appended a row did so as one turn of
    the logged-in caller, with a stripped, non-empty prompt. *)
Definition turn_of (d : db) (session : option Z)
    (resp : api_response conversation_json) (d' : db) : Prop :=
  exists u p input result now,
    current_user d session = Some u
    /\ p <> [] /\ trimmed p = true
    /\ (resp, d') = store_turn d u p input result now.

(** Keys handed out by AUTOINCREMENT so far: 1, 2, ..., n. *)
Definition keys_upto (n : nat) : list Z := List.map Z.of_nat (seq 1 n).

(** What every store built by the handlers satisfies. *)
Record store_ok (d : db) : Prop := {
  ok_user_ids : List.map u_id (users d) = keys_upto (List.length (users d));
  ok_users_seq : users_seq d = Z.of_nat (List.length (users d));
  ok_usernames : NoDup (List.map u_username (users d));
  ok_names :
    Forall (fun r => u_username r <> [] /\ trimmed (u_username r) = true)
           (users d);
  ok_flags :
    Forall (fun r => u_is_teacher r = 0%Z \/ u_is_teacher r = 1%Z) (users d);
  ok_first : forall r, hd_error (users d) = Some r -> u_is_teacher r = 1%Z;
  ok_conv_ids :
    List.map c_id (conversations d)
    = keys_upto (List.length (conversations d));
  ok_conv_seq :
    conversations_seq d = Z.of_nat (List.length (conversations d));
  ok_owners :
    Forall (fun c => In (c_user_id c) (List.map u_id (users d)))
           (conversations d);
  ok_prompts :
    Forall (fun c => c_prompt c <> [] /\ trimmed (c_prompt c) = true)
           (conversations d)
}.

End Run.

(* ================================================================= *)
(** ** Shapes of data URLs *)

Module DataUrl.
Import Py.

(** The text of a data URL in front of its first comma and, within
    that, in front of the first semicolon. *)
Definition url_head (s : str) : str :=
  hd [] (split (ord ";") (hd [] (split1 (ord ",") s))).

(** A mime type without comma, semicolon or colon. *)
Definition clean_mime (m : str) : Prop :=
  ~ In (ord ",") m /\ ~ In (ord ";") m /\ ~ In (ord ":") m.

End DataUrl.

(* ================================================================= *)
(** ** The run continued, for the further examples *)

Module Story.
Import Py Base64 Store Http App Pages Run Scenario.

(** A stand-in for the password check, matching [toy_hash]. *)
Definition toy_check (pw_hash password : str) : bool :=
  str_eqb pw_hash (toy_hash password).

(** The requests of the run, in the order they were served. *)
Definition story : list request :=
  [Register alice_form; Register bob_form; Initial cat_request;
   Initial alice_request;
   Continue (continue_request_with 2 (JStr (lit "now a dog"))
                                   (JStr cat_output))].

Definition login_form (session : option Z) (name password : str)
  : login_request :=
  {| log_method := POST;
     log_session := session;
     log_username := Some name;
     log_password := Some password |}.

(** A continue request with an arbitrary JSON body. *)
Definition raw_continue (session : Z) (body : json) : continue_request :=
  {| con_session := Some session;
     con_body := Some body;
     con_utcnow := lit "2024-05-01T10:00:09" |}.

End Story.

(* ================================================================= *)
(** ** The primitives on examples *)

Import Py Base64.

Example b64encode_hi : b64encode [Byte.x68; Byte.x69] = lit "aGk=".
Proof. reflexivity. Qed.

Example b64decode_hi : b64decode (lit "aGk=") = Ok [Byte.x68; Byte.x69].
Proof. reflexivity. Qed.

Example b64decode_one_char : b64decode (lit "A") = Raise BinasciiError.
Proof. reflexivity. Qed.

Example b64decode_skips :
  b64decode (lit "!!a G.k=zzzz") = Ok [Byte.x68; Byte.x69].
Proof. reflexivity. Qed.

Example strip_spaces : strip (lit "  a b  ") = lit "a b".
Proof. reflexivity. Qed.

Example split_commas :
  split (ord ",") (lit "a,b,,c") = [lit "a"; lit "b"; []; lit "c"].
Proof. reflexivity. Qed.

Example split1_commas :
  split1 (ord ",") (lit "a,b,,c") = [lit "a"; lit "b,,c"].
Proof. reflexivity. Qed.

(* ================================================================= *)
(** ** Properties of the base64 codec *)

Module Base64Facts.
Import Py Base64 Exhaust.


Lemma all_N256_complete n : n < 256 -> In n all_N256.
Proof.
  intros H. unfold all_N256. apply in_map_iff. exists (N.to_nat n). split.
  - apply N2Nat.id.
  - apply in_seq. lia.
Qed.

Lemma to_N_lt (b : Byte.byte) : Byte.to_N b < 256.
Proof. pose proof (Byte.to_N_bounded b). lia. Qed.

Lemma forall_N256 (P : N -> bool) :
  forallb P all_N256 = true -> forall n, n < 256 -> P n = true.
Proof.
  intros H n Hn. rewrite forallb_forall in H. apply H, all_N256_complete, Hn.
Qed.

Lemma byte_of_to_N b : byte_of_N (Byte.to_N b) = b.
Proof.
  unfold byte_of_N. rewrite N.mod_small by apply to_N_lt.
  now rewrite Byte.of_to_N.
Qed.


Lemma a2b_b2a i : i < 64 -> a2b (b2a i) = Some i.
Proof.
  intros H.
  assert (forallb (fun i => match a2b (b2a i) with Some j => j =? i | None => false end)
            all_N64 = true) as E by (vm_compute; reflexivity).
  rewrite forallb_forall in E.
  specialize (E i). 
  destruct (a2b (b2a i)) as [j|].
  - f_equal. apply N.eqb_eq, E. apply in_map_iff. exists (N.to_nat i). split; [apply N2Nat.id | apply in_seq; lia].
  - discriminate E. apply in_map_iff. exists (N.to_nat i). split; [apply N2Nat.id | apply in_seq; lia].
Qed.

Lemma in_range64 i : i < 64 -> In i all_N64.
Proof.
  intros H. apply in_map_iff. exists (N.to_nat i).
  split; [apply N2Nat.id | apply in_seq; lia].
Qed.

Lemma b2a_not_pad i : i < 64 -> (b2a i =? BASE64_PAD) = false.
Proof.
  intros H.
  assert (forallb (fun i => negb (b2a i =? BASE64_PAD))
            all_N64 = true) as E by (vm_compute; reflexivity).
  rewrite forallb_forall in E. apply negb_true_iff, E, in_range64, H.
Qed.

Lemma b2a_ascii i : i < 64 -> (b2a i <? 128) = true.
Proof.
  intros H.
  assert (forallb (fun i => b2a i <? 128)
            all_N64 = true) as E by (vm_compute; reflexivity).
  rewrite forallb_forall in E. apply E, in_range64, H.
Qed.

Lemma a2b_base64_char q p l v rest :
  v < 64 ->
  a2b_base64 q p l (b2a v :: rest) =
    match q with
    | 0%nat => a2b_base64 1 0 v rest
    | 1%nat =>
        emit (byte_of_N (N.lor (N.shiftl l 2) (N.shiftr v 4)))
             (a2b_base64 2 0 (N.land v 15) rest)
    | 2%nat =>
        emit (byte_of_N (N.lor (N.shiftl l 4) (N.shiftr v 2)))
             (a2b_base64 3 0 (N.land v 3) rest)
    | _ =>
        emit (byte_of_N (N.lor (N.shiftl l 6) v))
             (a2b_base64 0 0 0 rest)
    end.
Proof.
  intros H. cbn [a2b_base64]. now rewrite b2a_not_pad, a2b_b2a.
Qed.


Lemma pairs_ok_spec P :
  pairs_ok P = true -> forall a b, a < 256 -> b < 256 -> P a b = true.
Proof.
  intros H a b Ha Hb. unfold pairs_ok in H.
  apply (forall_N256 (P a)); [|exact Hb].
  apply (forall_N256 (fun a => forallb (P a) all_N256)); assumption.
Qed.

Lemma sextets_lt a b :
  a < 256 -> b < 256 ->
  sextet0 a < 64 /\ sextet1 a b < 64 /\ sextet2 a b < 64 /\ sextet3 a < 64
  /\ N.shiftl (N.land a 3) 4 < 64 /\ N.shiftl (N.land a 15) 2 < 64.
Proof.
  intros Ha Hb.
  pose proof (pairs_ok_spec
    (fun a b => (sextet0 a <? 64) && (sextet1 a b <? 64) && (sextet2 a b <? 64)
                && (sextet3 a <? 64) && (N.shiftl (N.land a 3) 4 <? 64)
                && (N.shiftl (N.land a 15) 2 <? 64))
    ltac:(vm_compute; reflexivity) a b Ha Hb) as E.
  cbv beta in E. rewrite !andb_true_iff, !N.ltb_lt in E. tauto.
Qed.

Lemma quad_bytes a b :
  a < 256 -> b < 256 ->
  N.lor (N.shiftl (sextet0 a) 2) (N.shiftr (sextet1 a b) 4) = a
  /\ N.land (sextet1 a b) 15 = N.shiftr b 4
  /\ N.lor (N.shiftl (N.shiftr a 4) 4) (N.shiftr (sextet2 a b) 2) = a
  /\ N.lor (N.shiftl (N.land (sextet2 a b) 3) 6) (sextet3 b) = b
  /\ N.lor (N.shiftl (sextet0 a) 2) (N.shiftr (N.shiftl (N.land a 3) 4) 4) = a
  /\ N.lor (N.shiftl (N.shiftr a 4) 4)
           (N.shiftr (N.shiftl (N.land a 15) 2) 2) = a.
Proof.
  intros Ha Hb.
  pose proof (pairs_ok_spec
    (fun a b =>
       (N.lor (N.shiftl (sextet0 a) 2) (N.shiftr (sextet1 a b) 4) =? a)
       && (N.land (sextet1 a b) 15 =? N.shiftr b 4)
       && (N.lor (N.shiftl (N.shiftr a 4) 4) (N.shiftr (sextet2 a b) 2) =? a)
       && (N.lor (N.shiftl (N.land (sextet2 a b) 3) 6) (sextet3 b) =? b)
       && (N.lor (N.shiftl (sextet0 a) 2)
                 (N.shiftr (N.shiftl (N.land a 3) 4) 4) =? a)
       && (N.lor (N.shiftl (N.shiftr a 4) 4)
                 (N.shiftr (N.shiftl (N.land a 15) 2) 2) =? a))
    ltac:(vm_compute; reflexivity) a b Ha Hb) as E.
  cbv beta in E. rewrite !andb_true_iff, !N.eqb_eq in E. tauto.
Qed.

Lemma b64encode_nil : b64encode [] = [].
Proof. reflexivity. Qed.

Lemma b64encode_1 x :
  b64encode [x] =
    [b2a (sextet0 (Byte.to_N x)); b2a (N.shiftl (N.land (Byte.to_N x) 3) 4);
     BASE64_PAD; BASE64_PAD].
Proof. reflexivity. Qed.

Lemma b64encode_2 x y :
  b64encode [x; y] =
    [b2a (sextet0 (Byte.to_N x)); b2a (sextet1 (Byte.to_N x) (Byte.to_N y));
     b2a (N.shiftl (N.land (Byte.to_N y) 15) 2); BASE64_PAD].
Proof. reflexivity. Qed.

Lemma b64encode_3 x y z rest :
  b64encode (x :: y :: z :: rest) =
    b2a (sextet0 (Byte.to_N x)) :: b2a (sextet1 (Byte.to_N x) (Byte.to_N y))
    :: b2a (sextet2 (Byte.to_N y) (Byte.to_N z)) :: b2a (sextet3 (Byte.to_N z))
    :: b64encode rest.
Proof. reflexivity. Qed.

Lemma a2b_quad x y z rest :
  a2b_base64 0 0 0
    (b2a (sextet0 (Byte.to_N x)) :: b2a (sextet1 (Byte.to_N x) (Byte.to_N y))
     :: b2a (sextet2 (Byte.to_N y) (Byte.to_N z)) :: b2a (sextet3 (Byte.to_N z))
     :: rest)
  = emit x (emit y (emit z (a2b_base64 0 0 0 rest))).
Proof.
  pose proof (to_N_lt x) as Hx. pose proof (to_N_lt y) as Hy.
  pose proof (to_N_lt z) as Hz.
  destruct (sextets_lt _ _ Hx Hy) as (S0 & S1 & _).
  destruct (sextets_lt _ _ Hy Hz) as (_ & _ & S2 & _).
  destruct (sextets_lt _ _ Hz Hz) as (_ & _ & _ & S3 & _).
  destruct (quad_bytes _ _ Hx Hy) as (I1 & I2 & _).
  destruct (quad_bytes _ _ Hy Hz) as (_ & _ & I3 & I4 & _).
  rewrite !a2b_base64_char by assumption.
  rewrite I1, I2, I3, I4, !byte_of_to_N. reflexivity.
Qed.

Lemma a2b_tail1 x rest :
  a2b_base64 0 0 0
    (b2a (sextet0 (Byte.to_N x)) :: b2a (N.shiftl (N.land (Byte.to_N x) 3) 4)
     :: BASE64_PAD :: BASE64_PAD :: rest)
  = Ok [x].
Proof.
  pose proof (to_N_lt x) as Hx.
  destruct (sextets_lt _ _ Hx Hx) as (S0 & _ & _ & _ & S1 & _).
  destruct (quad_bytes _ _ Hx Hx) as (_ & _ & _ & _ & I5 & _).
  rewrite !a2b_base64_char by assumption.
  rewrite I5, byte_of_to_N. reflexivity.
Qed.

Lemma a2b_tail2 x y rest :
  a2b_base64 0 0 0
    (b2a (sextet0 (Byte.to_N x)) :: b2a (sextet1 (Byte.to_N x) (Byte.to_N y))
     :: b2a (N.shiftl (N.land (Byte.to_N y) 15) 2) :: BASE64_PAD :: rest)
  = Ok [x; y].
Proof.
  pose proof (to_N_lt x) as Hx. pose proof (to_N_lt y) as Hy.
  destruct (sextets_lt _ _ Hx Hy) as (S0 & S1 & _).
  destruct (sextets_lt _ _ Hy Hy) as (_ & _ & _ & _ & _ & S2).
  destruct (quad_bytes _ _ Hx Hy) as (I1 & I2 & _).
  destruct (quad_bytes _ _ Hy Hy) as (_ & _ & _ & _ & _ & I6).
  rewrite !a2b_base64_char by assumption.
  rewrite I1, I2, I6, !byte_of_to_N. reflexivity.
Qed.

Lemma a2b_b64encode_len n : forall s,
  (List.length s <= n)%nat -> a2b_base64 0 0 0 (b64encode s) = Ok s.
Proof.
  induction n as [|n IH]; intros s Hs.
  - destruct s; [reflexivity | simpl in Hs; lia].
  - destruct s as [|x [|y [|z rest]]].
    + reflexivity.
    + rewrite b64encode_1. apply a2b_tail1.
    + rewrite b64encode_2. apply a2b_tail2.
    + rewrite b64encode_3, a2b_quad, IH by (simpl in Hs; lia). reflexivity.
Qed.

Lemma b64encode_ascii s : forallb (fun c => c <? 128) (b64encode s) = true.
Proof.
  assert (forall n s, (List.length s <= n)%nat ->
                      forallb (fun c => c <? 128) (b64encode s) = true) as G.
  { clear s. induction n as [|n IH]; intros s Hs.
    - destruct s; [reflexivity | simpl in Hs; lia].
    - destruct s as [|x [|y [|z rest]]].
      + reflexivity.
      + pose proof (to_N_lt x) as Hx.
        destruct (sextets_lt _ _ Hx Hx) as (S0 & _ & _ & _ & S1 & _).
        rewrite b64encode_1. cbn [forallb].
        now rewrite !b2a_ascii by assumption.
      + pose proof (to_N_lt x) as Hx. pose proof (to_N_lt y) as Hy.
        destruct (sextets_lt _ _ Hx Hy) as (S0 & S1 & _).
        destruct (sextets_lt _ _ Hy Hy) as (_ & _ & _ & _ & _ & S2).
        rewrite b64encode_2. cbn [forallb].
        now rewrite !b2a_ascii by assumption.
      + pose proof (to_N_lt x) as Hx. pose proof (to_N_lt y) as Hy.
        pose proof (to_N_lt z) as Hz.
        destruct (sextets_lt _ _ Hx Hy) as (S0 & S1 & _).
        destruct (sextets_lt _ _ Hy Hz) as (_ & _ & S2 & _).
        destruct (sextets_lt _ _ Hz Hz) as (_ & _ & _ & S3 & _).
        rewrite b64encode_3. cbn [forallb].
        rewrite !b2a_ascii by assumption.
        rewrite IH by (simpl in Hs; lia). reflexivity. }
  apply (G (List.length s)). lia.
Qed.

Lemma b64decode_b64encode s : b64decode (b64encode s) = Ok s.
Proof.
  unfold b64decode, bytes_from_decode_data.
  rewrite b64encode_ascii. cbn [bind].
  apply (a2b_b64encode_len (List.length s)). lia.
Qed.

End Base64Facts.

(* ================================================================= *)
(** ** Properties of the string primitives *)

Module PyFacts.
Import Py.

Lemma str_eqb_eq a b : str_eqb a b = true <-> a = b.
Proof.
  unfold str_eqb. destruct (list_eq_dec N.eq_dec a b); split; congruence.
Qed.

Lemma str_eqb_refl a : str_eqb a a = true.
Proof. now apply str_eqb_eq. Qed.

Lemma str_eqb_neq a b : str_eqb a b = false <-> a <> b.
Proof.
  unfold str_eqb. destruct (list_eq_dec N.eq_dec a b); split; congruence.
Qed.

Lemma truthy_false s : truthy s = false <-> s = [].
Proof. destruct s; simpl; split; congruence. Qed.

Lemma truthy_true s : truthy s = true <-> s <> [].
Proof. destruct s; simpl; split; congruence. Qed.

(** What [lstrip] removes is white space, and it stops at the first
    character that is not. *)
Lemma lstrip_split s :
  exists w, s = w ++ lstrip s /\ forallb isspace w = true.
Proof.
  induction s as [|c s IH]; simpl.
  - exists []. split; reflexivity.
  - destruct (isspace c) eqn:E.
    + destruct IH as (w & Hw & Hs). exists (c :: w). simpl.
      rewrite E, Hs. split; [now f_equal | reflexivity].
    + exists []. split; reflexivity.
Qed.

Lemma lstrip_starts s : starts_space (lstrip s) = false.
Proof.
  induction s as [|c s IH]; simpl; [reflexivity|].
  destruct (isspace c) eqn:E; [exact IH | simpl; exact E].
Qed.

Lemma lstrip_blank s : forallb isspace s = true -> lstrip s = [].
Proof.
  induction s as [|c s IH]; simpl; [reflexivity|].
  intros H. apply andb_true_iff in H as [Hc Hs]. rewrite Hc. auto.
Qed.

Lemma rstrip_split s :
  exists w, s = rstrip s ++ w /\ forallb isspace w = true.
Proof.
  unfold rstrip. destruct (lstrip_split (rev s)) as (w & Hw & Hs).
  exists (rev w). split.
  - rewrite <- rev_app_distr, <- Hw. symmetry. apply rev_involutive.
  - rewrite forallb_forall in *. intros x Hx. apply Hs, in_rev, Hx.
Qed.

Lemma strip_trimmed s : trimmed (strip s) = true.
Proof.
  unfold trimmed, strip. apply andb_true_iff. split; apply negb_true_iff.
  - destruct (rstrip_split (lstrip s)) as (w & Hw & _).
    pose proof (lstrip_starts s) as H. rewrite Hw in H.
    destruct (rstrip (lstrip s)); [reflexivity | exact H].
  - unfold rstrip. rewrite rev_involutive. apply lstrip_starts.
Qed.

Lemma strip_blank s : forallb isspace s = true -> strip s = [].
Proof.
  intros H. unfold strip. now rewrite (lstrip_blank s H).
Qed.

Lemma forallb_rev {A} (p : A -> bool) l :
  forallb p l = true -> forallb p (rev l) = true.
Proof.
  rewrite !forallb_forall. intros H x Hx. apply H, in_rev, Hx.
Qed.

(** Conversely a string that strips to nothing was all white space. *)
Lemma strip_nil_blank s : strip s = [] -> forallb isspace s = true.
Proof.
  unfold strip. intros H.
  destruct (lstrip_split s) as (w & Hw & Hs).
  destruct (rstrip_split (lstrip s)) as (w' & Hw' & Hs').
  rewrite H in Hw'. simpl in Hw'. rewrite Hw, Hw', forallb_app, Hs, Hs'.
  reflexivity.
Qed.

(** [split1] cuts at the first separator and nowhere else. *)
Lemma split1_app sep a b :
  ~ In sep a -> split1 sep (a ++ sep :: b) = [a; b].
Proof.
  induction a as [|c a IH]; simpl; intros H.
  - now rewrite N.eqb_refl.
  - destruct (N.eqb_spec c sep) as [->|Hne]; [tauto|].
    rewrite IH by tauto. reflexivity.
Qed.

Lemma split1_no_sep sep s : ~ In sep s -> split1 sep s = [s].
Proof.
  induction s as [|c s IH]; simpl; intros H; [reflexivity|].
  destruct (N.eqb_spec c sep) as [->|Hne]; [tauto|].
  rewrite IH by tauto. reflexivity.
Qed.

Lemma split_no_sep sep s : ~ In sep s -> split sep s = [s].
Proof.
  induction s as [|c s IH]; simpl; intros H; [reflexivity|].
  destruct (N.eqb_spec c sep) as [->|Hne]; [tauto|].
  rewrite IH by tauto. reflexivity.
Qed.

Lemma split_nonempty sep s : split sep s <> [].
Proof.
  destruct s as [|c s]; simpl; [discriminate|].
  destruct (c =? sep); [discriminate|].
  destruct (split sep s); discriminate.
Qed.

(** A string with a separator in it splits into two parts at least. *)
Lemma split_two sep s :
  In sep s -> exists a b l, split sep s = a :: b :: l.
Proof.
  induction s as [|c s IH]; simpl; [tauto|].
  intros H. destruct (N.eqb_spec c sep) as [->|Hne].
  - destruct (split sep s) as [|p ps] eqn:E.
    + now apply split_nonempty in E.
    + now exists [], p, ps.
  - destruct H as [H|H]; [congruence|].
    destruct (IH H) as (a & b & l & E). rewrite E. now exists (c :: a), b, l.
Qed.


End PyFacts.

(* ================================================================= *)
(** ** Properties of ORDER BY *)

Module StoreFacts.
Import Py Store.

Lemma text_le_total a : forall b, text_le a b = false -> text_le b a = true.
Proof.
  induction a as [|x a IH]; intros [|y b]; simpl; try congruence.
  intros H. apply orb_false_iff in H as [H1 H2].
  apply N.ltb_ge in H1.
  destruct (N.eqb_spec x y) as [->|Hne]; simpl in H2.
  - rewrite N.eqb_refl, (IH _ H2). apply orb_true_r.
  - assert (y < x) as Hlt by lia. apply N.ltb_lt in Hlt. now rewrite Hlt.
Qed.

Lemma sql_le_total a b : sql_le a b = false -> sql_le b a = true.
Proof.
  destruct a, b; simpl; try congruence. apply text_le_total.
Qed.

Section OrderByFacts.
Context {A : Type} (key : A -> option str).

Lemma insert_by_perm x l : Permutation (insert_by key x l) (x :: l).
Proof.
  induction l as [|y l IH]; simpl; [reflexivity|].
  destruct (sql_le (key x) (key y)); [reflexivity|].
  rewrite IH. apply perm_swap.
Qed.

Lemma order_by_perm l : Permutation (order_by key l) l.
Proof.
  induction l as [|x l IH]; simpl; [reflexivity|].
  rewrite insert_by_perm. now constructor.
Qed.

Lemma insert_by_sorted x l :
  Sorted (key_le key) l -> Sorted (key_le key) (insert_by key x l).
Proof.
  induction 1 as [|y l Hs IH Hhd]; simpl.
  - repeat constructor.
  - destruct (sql_le (key x) (key y)) eqn:E.
    + constructor; [now constructor | now constructor].
    + constructor; [exact IH|].
      destruct l as [|z l]; simpl.
      * constructor. now apply sql_le_total.
      * destruct (sql_le (key x) (key z)).
        -- constructor. now apply sql_le_total.
        -- constructor. now inversion Hhd.
Qed.

Lemma order_by_sorted l : Sorted (key_le key) (order_by key l).
Proof.
  induction l as [|x l IH]; simpl; [constructor|].
  now apply insert_by_sorted.
Qed.

End OrderByFacts.

End StoreFacts.

(* ================================================================= *)
(** ** Registration *)

Import Store Http App PyFacts Base64Facts StoreFacts Scenario.

Lemma user_count_zero d : Z.eqb (get_user_count d) 0 = true <-> users d = [].
Proof.
  unfold get_user_count. destruct (users d); simpl; split; congruence.
Qed.

Lemma user_count_nonzero d :
  Z.eqb (get_user_count d) 0 = false <-> users d <> [].
Proof.
  rewrite <- user_count_zero. destruct (Z.eqb (get_user_count d) 0);
    split; congruence.
Qed.

Lemma existsb_username_In d name :
  existsb (fun r => str_eqb (u_username r) name) (users d) = true
  <-> In name (List.map u_username (users d)).
Proof.
  rewrite existsb_exists, in_map_iff. split.
  - intros (r & Hr & E). apply str_eqb_eq in E. now exists r.
  - intros (r & E & Hr). exists r. split; [exact Hr | now apply str_eqb_eq].
Qed.

Lemma existsb_username_not_In d name :
  existsb (fun r => str_eqb (u_username r) name) (users d) = false
  <-> ~ In name (List.map u_username (users d)).
Proof.
  rewrite <- existsb_username_In.
  destruct (existsb (fun r => str_eqb (u_username r) name) (users d));
    split; congruence.
Qed.

Lemma current_user_some d session u :
  current_user d session = Some u -> users d <> [].
Proof.
  unfold current_user, load_user, select_user_by_id.
  destruct session as [uid|]; [|discriminate].
  destruct (users d); [discriminate | discriminate].
Qed.

(** What [register_post] answers, case by case. *)
Lemma register_post_cases hash d (first_user : bool) req :
  let name := strip (or_empty (form_username req)) in
  let flag := if first_user then true else checkbox_on (form_is_teacher req) in
  name <> [] -> or_empty (form_password req) <> [] ->
  (In name (List.map u_username (users d)) /\
   register_post hash d first_user req
     = (RenderRegister first_user flash_duplicate, d))
  \/ (~ In name (List.map u_username (users d)) /\
      exists d',
        insert_user d name (hash (or_empty (form_password req)))
                    (if flag then 1%Z else 0%Z) = Ok d'
        /\ register_post hash d first_user req
           = (Redirect (if first_user then ep_login else ep_teacher_panel)
                       (flash_created first_user), d')).
Proof.
  intros name flag Hn Hp. unfold register_post. fold name.
  apply truthy_true in Hn, Hp. rewrite Hn, Hp. cbn [negb orb].
  fold flag. unfold insert_user.
  destruct (existsb _ (users d)) eqn:E.
  - left. split; [now apply existsb_username_In | reflexivity].
  - right. split; [now apply existsb_username_not_In|].
    eexists. split; [reflexivity|]. now destruct first_user.
Qed.

Lemma register_post_users hash d (first_user : bool) req resp d' :
  register_post hash d first_user req = (resp, d') ->
  d' = d
  \/ exists row,
       users d' = users d ++ [row]
       /\ u_username row = strip (or_empty (form_username req))
       /\ ~ In (u_username row) (List.map u_username (users d))
       /\ u_is_teacher row =
            (if (if first_user then true
                 else checkbox_on (form_is_teacher req))
             then 1%Z else 0%Z).
Proof.
  unfold register_post.
  destruct (negb (truthy _) || negb (truthy _)).
  - intros [= _ <-]. now left.
  - unfold insert_user. destruct (existsb _ (users d)) eqn:E.
    + intros [= _ <-]. now left.
    + apply existsb_username_not_In in E.
      destruct first_user; intros [= _ <-]; right;
        eexists; cbn; repeat split; try reflexivity; exact E.
Qed.

(** C1.  While the store holds no user, every account the registration
    route creates carries the teacher flag, whatever role the form
    asked for, and a complete POST does create one; once a user exists,
    an account created by the route carries the flag as submitted. *)
Theorem register_first_user_teacher hash d req resp d' :
  register hash d req = (resp, d') ->
  (users d = [] ->
     (d' = d \/ exists row, users d' = [row] /\ u_is_teacher row = 1%Z)
     /\ (reg_method req = POST ->
         strip (or_empty (form_username req)) <> [] ->
         or_empty (form_password req) <> [] ->
         resp = Redirect ep_login (flash_created true)
         /\ exists row,
              users d' = [row] /\ u_is_teacher row = 1%Z
              /\ option_map is_teacher (load_user d' (u_id row)) = Some true))
  /\ (users d <> [] ->
        d' = d
        \/ exists row,
             users d' = users d ++ [row]
             /\ u_is_teacher row =
                  (if checkbox_on (form_is_teacher req) then 1%Z else 0%Z)).
Proof.
  intros H. split.
  - intros Hz. unfold register in H.
    rewrite (proj2 (user_count_zero d) Hz) in H. cbn [negb andb] in H.
    split.
    + destruct (reg_method req).
      * injection H as _ <-. now left.
      * apply register_post_users in H as [->|(row & Hu & _ & _ & Ht)];
          [now left | right].
        exists row. rewrite Hu, Hz. now split.
    + intros Hm Hn Hp. rewrite Hm in H.
      destruct (register_post_cases hash d true req Hn Hp)
        as [[Hin _]|(_ & d2 & Hins & E)].
      * rewrite Hz in Hin. destruct Hin.
      * rewrite E in H. injection H as <- <-. split; [reflexivity|].
        unfold insert_user in Hins. rewrite Hz in Hins. cbn in Hins.
        injection Hins as <-. eexists. cbn. repeat split.
        unfold load_user, select_user_by_id. cbn.
        rewrite Z.eqb_refl. reflexivity.
  - intros Hnz. unfold register in H.
    rewrite (proj2 (user_count_nonzero d) Hnz) in H. cbn [negb andb] in H.
    destruct (not_a_teacher (current_user d (reg_session req))).
    + injection H as _ <-. now left.
    + destruct (reg_method req).
      * injection H as _ <-. now left.
      * apply register_post_users in H as [->|(row & Hu & _ & _ & Ht)];
          [now left | right]. now exists row.
Qed.

(** C2.  With at least one user in the store, a caller who is not
    logged in, or is logged in without the teacher flag, is sent away
    with the teacher-only message and the store is left as it was. *)
Theorem register_forbidden hash d req :
  users d <> [] ->
  (forall u, current_user d (reg_session req) = Some u ->
             is_teacher u = false) ->
  register hash d req = (Redirect ep_login flash_forbidden, d).
Proof.
  intros Hnz Hc. unfold register, not_a_teacher.
  rewrite (proj2 (user_count_nonzero d) Hnz). cbn [negb andb].
  destruct (current_user d (reg_session req)) as [u|]; [|reflexivity].
  now rewrite (Hc u eq_refl).
Qed.

(** C5.  A teacher's POST whose user name (as submitted, outer white
    space stripped) equals a stored one code point for code point is
    answered with the duplicate-name message and leaves the store
    untouched; a name that differs from every stored one is inserted.
    Whoever the caller is, an attempt with a stored name adds no row. *)
Theorem register_duplicate_username hash d req :
  let name := strip (or_empty (form_username req)) in
  (In name (List.map u_username (users d)) ->
   snd (register hash d req) = d)
  /\ (forall u,
        reg_method req = POST ->
        current_user d (reg_session req) = Some u -> is_teacher u = true ->
        name <> [] -> or_empty (form_password req) <> [] ->
        (In name (List.map u_username (users d)) ->
         register hash d req = (RenderRegister false flash_duplicate, d))
        /\ (~ In name (List.map u_username (users d)) ->
            exists d' row,
              register hash d req
                = (Redirect ep_teacher_panel (flash_created false), d')
              /\ users d' = users d ++ [row] /\ u_username row = name)).
Proof.
  intros name. split.
  - intros Hin. destruct (register hash d req) as [resp d'] eqn:E. cbn.
    unfold register in E.
    destruct (negb _ && _).
    + now injection E as _ <-.
    + destruct (reg_method req); [now injection E as _ <-|].
      apply register_post_users in E as [->|(row & _ & Hname & Hfresh & _)];
        [reflexivity|].
      rewrite Hname in Hfresh. contradiction.
  - intros u Hm Hu Ht Hn Hp.
    assert (users d <> []) as Hnz by exact (current_user_some d _ u Hu).
    unfold register, not_a_teacher.
    rewrite (proj2 (user_count_nonzero d) Hnz), Hu, Ht, Hm. cbn [negb andb].
    destruct (register_post_cases hash d false req Hn Hp)
      as [[Hin E]|(Hfresh & d2 & Hins & E)].
    + split; [intros _; exact E | intros Hfresh; now destruct Hfresh].
    + split; [intros Hin; now destruct Hfresh | intros _].
      unfold insert_user in Hins.
      destruct (existsb _ (users d)); [discriminate|]. injection Hins as <-.
      do 2 eexists. split; [exact E|]. cbn. split; reflexivity.
Qed.

(* ================================================================= *)
(** ** The transform and the conversation endpoints *)

(** C7.  The stub transform is total: it hands back the base64 text of
    the very bytes it was given (decoding it restores them), the mime
    type it was given, and the fixed sentence followed by the prompt. *)
Theorem generate_image_from_sketch_echo image_bytes mime_type p :
  let result := generate_image_from_sketch image_bytes mime_type p in
  image_base64 result = b64encode image_bytes
  /\ b64decode (image_base64 result) = Ok image_bytes
  /\ image_mime_type result = mime_type
  /\ text result = lit "(Stub) Model response for prompt: " ++ p.
Proof.
  cbn. repeat split. apply b64decode_b64encode.
Qed.

Lemma store_turn_spec d u p input result now :
  exists d',
    store_turn d u p input result now
      = (Json200 (row_json (turn_row d u p input result now)), d')
    /\ conversations d'
       = conversations d ++ [turn_row d u p input result now]
    /\ users d' = users d.
Proof.
  eexists. unfold store_turn, insert_conversation, turn_row, row_json. cbn.
  repeat split.
Qed.

Lemma api_initial_with_accepts transform d req u f :
  current_user d (ini_session req) = Some u ->
  files_sketch req = Some f ->
  truthy (filename f) = true ->
  strip (or_empty (form_prompt req)) <> [] ->
  api_initial_with transform d req =
    store_turn d u (strip (or_empty (form_prompt req)))
      (data_url (effective_mime f) (b64encode (content f)))
      (transform (content f) (effective_mime f)
                 (strip (or_empty (form_prompt req))))
      (ini_utcnow req).
Proof.
  intros Hu Hf Hn Hp. unfold api_initial_with.
  rewrite Hu, Hf, Hn. apply truthy_true in Hp. rewrite Hp. reflexivity.
Qed.

Lemma api_initial_with_inv transform d req r d' :
  api_initial_with transform d req = (Json200 r, d') ->
  exists u f,
    current_user d (ini_session req) = Some u
    /\ files_sketch req = Some f
    /\ truthy (filename f) = true
    /\ strip (or_empty (form_prompt req)) <> [].
Proof.
  unfold api_initial_with.
  destruct (current_user d (ini_session req)) as [u|]; [|discriminate].
  destruct (files_sketch req) as [f|]; [|discriminate].
  destruct (truthy (filename f)) eqn:Hn; [|discriminate]. cbn [negb].
  destruct (truthy (strip (or_empty (form_prompt req)))) eqn:Hp;
    [|discriminate].
  intros _. exists u, f. repeat split; [exact Hn | now apply truthy_true].
Qed.

(** C8 (amended).  For a logged-in caller: a request whose sketch is
    missing (no file part, or a part without a file name) is answered
    400 "Missing sketch file"; with a sketch but a prompt that is empty
    once stripped it is answered 400 "Missing prompt"; in both cases the
    store is unchanged.  Every other request, a named upload of zero
    bytes included, is answered 200 with the six-field record of the
    row it appends. *)
Theorem api_initial_validation d req u :
  current_user d (ini_session req) = Some u ->
  let p := strip (or_empty (form_prompt req)) in
  (file_truthy (files_sketch req) = false ->
   api_initial d req = (Json400 (lit "Missing sketch file"), d))
  /\ (file_truthy (files_sketch req) = true -> p = [] ->
      api_initial d req = (Json400 (lit "Missing prompt"), d))
  /\ (file_truthy (files_sketch req) = true -> p <> [] ->
      exists row d',
        api_initial d req = (Json200 (row_json row), d')
        /\ conversations d' = conversations d ++ [row]
        /\ c_user_id row = user_id u
        /\ c_prompt row = p
        /\ c_created_at row = ini_utcnow req).
Proof.
  intros Hu p. unfold api_initial. repeat split.
  - unfold api_initial_with, file_truthy. rewrite Hu.
    destruct (files_sketch req) as [f|]; [|reflexivity].
    now intros ->.
  - unfold api_initial_with, file_truthy. rewrite Hu.
    destruct (files_sketch req) as [f|]; [|discriminate].
    intros -> Hp. fold p. now rewrite Hp.
  - unfold file_truthy. destruct (files_sketch req) as [f|] eqn:Hf;
      [|discriminate].
    intros Hn Hp.
    rewrite (api_initial_with_accepts _ d req u f Hu Hf Hn Hp). fold p.
    destruct (store_turn_spec d u p
                (data_url (effective_mime f) (b64encode (content f)))
                (generate_image_from_sketch (content f) (effective_mime f) p)
                (ini_utcnow req)) as (d' & E & Hc & _).
    eexists. exists d'. split; [exact E|]. split; [exact Hc|].
    repeat split.
Qed.

(** C9.  When the uploaded sketch declares no mime type, "image/png"
    stands in for it: it is the mime type of the stored and returned
    input data URL and the one handed to the transform, whichever
    transform that is; under the stub the output data URL carries it
    too. *)
Theorem api_initial_default_mime transform d req u f :
  current_user d (ini_session req) = Some u ->
  files_sketch req = Some f ->
  truthy (filename f) = true ->
  mimetype f = [] ->
  let p := strip (or_empty (form_prompt req)) in
  p <> [] ->
  let result := transform (content f) (lit "image/png") p in
  let input := lit "data:image/png;base64," ++ b64encode (content f) in
  (exists row d',
     api_initial_with transform d req = (Json200 (row_json row), d')
     /\ conversations d' = conversations d ++ [row]
     /\ c_input_image row = input
     /\ c_output_image row
        = data_url (image_mime_type result) (image_base64 result)
     /\ c_model_response_text row = text result)
  /\ (exists row d',
        api_initial d req = (Json200 (row_json row), d')
        /\ conversations d' = conversations d ++ [row]
        /\ c_input_image row = input
        /\ c_output_image row = input).
Proof.
  intros Hu Hf Hn Hm p Hp result input.
  assert (effective_mime f = lit "image/png") as Em
      by (unfold effective_mime; now rewrite Hm).
  split.
  - rewrite (api_initial_with_accepts _ d req u f Hu Hf Hn Hp), Em. fold p.
    destruct (store_turn_spec d u p
                (data_url (lit "image/png") (b64encode (content f)))
                result (ini_utcnow req)) as (d' & E & Hc & _).
    eexists. exists d'. split; [exact E|]. split; [exact Hc|].
    repeat split.
  - unfold api_initial.
    rewrite (api_initial_with_accepts _ d req u f Hu Hf Hn Hp), Em. fold p.
    destruct (store_turn_spec d u p
                (data_url (lit "image/png") (b64encode (content f)))
                (generate_image_from_sketch (content f) (lit "image/png") p)
                (ini_utcnow req)) as (d' & E & Hc & _).
    eexists. exists d'. split; [exact E|]. split; [exact Hc|].
    repeat split.
Qed.

Lemma json_get_str_truthy body k s :
  json_get body k = Ok (JStr s) -> json_truthy body = true.
Proof.
  destruct body as [| | | | |m]; try discriminate.
  destruct m; [discriminate | reflexivity].
Qed.

Lemma json_prompt_str data p0 :
  json_get data (lit "prompt") = Ok (JStr p0) ->
  json_prompt data = Ok (strip p0).
Proof.
  intros H. unfold json_prompt. rewrite H. cbn [bind json_truthy].
  destruct p0; reflexivity.
Qed.

Lemma json_prompt_trimmed data p :
  json_prompt data = Ok p -> trimmed p = true.
Proof.
  unfold json_prompt.
  destruct (json_get data (lit "prompt")) as [v|]; [|discriminate].
  cbn [bind]. destruct (json_truthy v).
  - destruct v; try discriminate. intros [= <-]. apply strip_trimmed.
  - intros [= <-]. reflexivity.
Qed.


Lemma api_continue_with_inv transform d req r d' :
  api_continue_with transform d req = (Json200 r, d') ->
  exists u p s mime b64 image,
    current_user d (con_session req) = Some u
    /\ trimmed p = true /\ p <> []
    /\ parse_data_url s = Ok (mime, b64)
    /\ b64decode b64 = Ok image
    /\ store_turn d u p s (transform image mime p) (con_utcnow req)
       = (Json200 r, d').
Proof.
  unfold api_continue_with.
  destruct (current_user d (con_session req)) as [u|]; [|discriminate].
  destruct (con_body req) as [body|]; [|discriminate].
  destruct (json_prompt _) as [p|] eqn:Hp; [|discriminate].
  destruct (json_get _ (lit "lastImage")) as [v|]; [|discriminate].
  destruct (truthy p) eqn:Ht; [|discriminate]. cbn [negb].
  destruct (json_truthy v); [|discriminate]. cbn [negb].
  destruct (try_parse v) as [[s [mime b64]]|] eqn:Hparse; [|discriminate].
  destruct (b64decode b64) as [image|] eqn:Hdec; [|discriminate].
  intros H. exists u, p, s, mime, b64, image.
  destruct v; try discriminate. cbn [try_parse] in Hparse.
  destruct (parse_data_url s0) as [[m b]|] eqn:E; [|discriminate].
  injection Hparse as -> -> ->.
  repeat split; try assumption.
  - exact (json_prompt_trimmed _ _ Hp).
  - now apply truthy_true.
Qed.

Lemma json_get_object_ok body k v k' :
  json_get body k = Ok v -> exists w, json_get body k' = Ok w.
Proof.
  destruct body as [| | | | |m]; try discriminate.
  intros _. cbn. destruct (members_get k' m); eauto.
Qed.

Lemma api_initial_blank_prompt d req u :
  current_user d (ini_session req) = Some u ->
  forallb isspace (or_empty (form_prompt req)) = true ->
  api_initial d req =
    (Json400 (if file_truthy (files_sketch req)
              then lit "Missing prompt" else lit "Missing sketch file"), d).
Proof.
  intros Hu Hblank. unfold api_initial, api_initial_with, file_truthy.
  rewrite Hu, (strip_blank _ Hblank).
  destruct (files_sketch req) as [f|]; [|reflexivity].
  destruct (truthy (filename f)); reflexivity.
Qed.

Lemma api_continue_blank_prompt d req u body p :
  current_user d (con_session req) = Some u ->
  con_body req = Some body ->
  json_get body (lit "prompt") = Ok (JStr p) ->
  forallb isspace p = true ->
  api_continue d req = (Json400 (lit "Missing prompt"), d).
Proof.
  intros Hu Hb Hp Hblank. unfold api_continue, api_continue_with.
  rewrite Hu, Hb, (json_get_str_truthy _ _ _ Hp), (json_prompt_str _ _ Hp).
  rewrite (strip_blank _ Hblank).
  destruct (json_get_object_ok _ _ _ (lit "lastImage") Hp) as (w & ->).
  reflexivity.
Qed.

Lemma api_initial_stored_prompt d req r d' :
  api_initial d req = (Json200 r, d') ->
  prompt r = strip (or_empty (form_prompt req))
  /\ exists row,
       conversations d' = conversations d ++ [row]
       /\ c_prompt row = prompt r.
Proof.
  intros H. destruct (api_initial_with_inv _ _ _ _ _ H)
    as (u & f & Hu & Hf & Hn & Hp).
  unfold api_initial in H.
  rewrite (api_initial_with_accepts _ d req u f Hu Hf Hn Hp) in H.
  unfold store_turn in H. cbn in H. injection H as <- <-. cbn.
  split; [reflexivity|]. eexists. split; reflexivity.
Qed.

Lemma api_continue_stored_prompt d req r d' :
  api_continue d req = (Json200 r, d') ->
  trimmed (prompt r) = true
  /\ exists row,
       conversations d' = conversations d ++ [row]
       /\ c_prompt row = prompt r.
Proof.
  intros H. apply api_continue_with_inv in H
    as (u & p & s & mime & b64 & image & _ & Ht & _ & _ & _ & E).
  unfold store_turn in E. cbn in E. injection E as <- <-. cbn.
  split; [exact Ht|]. eexists. split; reflexivity.
Qed.

(** C10.  Both conversation endpoints strip the prompt before they look
    at it.  A prompt made of white space only is turned down with 400
    and nothing is stored: the answer is "Missing prompt" (in
    [/api/initial], where the sketch is tested first, "Missing sketch
    file" when the sketch is missing as well).  The prompt of every
    record returned, which is the prompt of the row stored with it, has
    no white space at either end. *)
Theorem prompt_stripped_before_use d :
  (forall req u,
     current_user d (ini_session req) = Some u ->
     forallb isspace (or_empty (form_prompt req)) = true ->
     api_initial d req =
       (Json400 (if file_truthy (files_sketch req)
                 then lit "Missing prompt" else lit "Missing sketch file"),
        d))
  /\ (forall req u body p,
        current_user d (con_session req) = Some u ->
        con_body req = Some body ->
        json_get body (lit "prompt") = Ok (JStr p) ->
        forallb isspace p = true ->
        api_continue d req = (Json400 (lit "Missing prompt"), d))
  /\ (forall req r d',
        api_initial d req = (Json200 r, d') ->
        prompt r = strip (or_empty (form_prompt req))
        /\ trimmed (prompt r) = true
        /\ exists row,
             conversations d' = conversations d ++ [row]
             /\ c_prompt row = prompt r)
  /\ (forall req r d',
        api_continue d req = (Json200 r, d') ->
        trimmed (prompt r) = true
        /\ exists row,
             conversations d' = conversations d ++ [row]
             /\ c_prompt row = prompt r).
Proof.
  split; [|split; [|split]].
  - exact (api_initial_blank_prompt d).
  - exact (api_continue_blank_prompt d).
  - intros req r d' H.
    destruct (api_initial_stored_prompt d req r d' H) as (Hp & Hrow).
    split; [exact Hp|]. split; [|exact Hrow].
    rewrite Hp. apply strip_trimmed.
  - exact (api_continue_stored_prompt d).
Qed.





Lemma load_user_id d uid u : load_user d uid = Some u -> user_id u = uid.
Proof.
  unfold load_user, select_user_by_id.
  destruct (find _ (users d)) as [row|] eqn:E; [|discriminate].
  intros [= <-]. cbn. apply find_some in E as [_ E]. now apply Z.eqb_eq.
Qed.

(** C6.  For a logged-in user the history route answers with the records
    of exactly the conversation rows owned by that user, each once, no
    row of anybody else among them, in ascending order of the
    [datetime] of their creation time. *)
Theorem api_my_history_own_rows datetime d uid u :
  current_user d (Some uid) = Some u ->
  exists rows,
    api_my_history datetime d (Some uid) = Json200 (List.map row_json rows)
    /\ Permutation rows
         (filter (fun r => Z.eqb (c_user_id r) uid) (conversations d))
    /\ (forall r, In r rows <-> In r (conversations d) /\ c_user_id r = uid)
    /\ Sorted (key_le (fun r => datetime (c_created_at r))) rows.
Proof.
  intros Hu. pose proof (load_user_id d uid u Hu) as Hid.
  exists (select_conversations datetime d uid).
  unfold api_my_history. rewrite Hu, Hid.
  split; [reflexivity|]. unfold select_conversations.
  split; [apply order_by_perm|]. split; [|apply order_by_sorted].
  intros r. split; intros H.
  - apply (Permutation_in _ (order_by_perm _ _)) in H.
    apply filter_In in H as [Hin E]. split; [exact Hin | now apply Z.eqb_eq].
  - apply (Permutation_in _ (Permutation_sym (order_by_perm _ _))).
    apply filter_In. destruct H as [Hin E].
    split; [exact Hin | now apply Z.eqb_eq].
Qed.

(* ================================================================= *)
(** ** The run, step by step *)

Example ex_alice_db :
  alice_db =
    {| users := [{| u_id := 1; u_username := lit "alice";
                    u_password_hash := lit "$2b$wonderland";
                    u_is_teacher := 1 |}];
       users_seq := 1; conversations := []; conversations_seq := 0 |}.
Proof. reflexivity. Qed.

Example ex_bob_db :
  users bob_db =
    users alice_db ++ [{| u_id := 2; u_username := lit "bob";
                          u_password_hash := lit "$2b$builder";
                          u_is_teacher := 0 |}].
Proof. reflexivity. Qed.

(** The end-to-end example of the specification: bob's first call. *)
Example ex_cat :
  fst (api_initial bob_db cat_request) =
    Json200 {| id := 1;
               prompt := lit "draw a cat";
               inputImage := lit "data:image/png;base64,iVBORw0KGgoAAQ==";
               outputImage := lit "data:image/png;base64,iVBORw0KGgoAAQ==";
               modelResponseText :=
                 lit "(Stub) Model response for prompt: draw a cat";
               createdAt := lit "2024-05-01T10:00:00.250000" |}.
Proof. vm_compute. reflexivity. Qed.

Example ex_two_owner :
  List.map (fun r => (c_id r, c_user_id r, c_prompt r))
           (conversations two_owner_db)
  = [(1%Z, 2%Z, lit "draw a cat"); (2%Z, 1%Z, lit "a house");
     (3%Z, 2%Z, lit "now a dog")].
Proof. vm_compute. reflexivity. Qed.


(* ================================================================= *)
(** ** The theorems at work on the run above *)

Lemma register_first_user_teacher_witness :
  (exists row, users alice_db = [row] /\ u_is_teacher row = 1%Z)
  /\ (exists row,
        users bob_db = users alice_db ++ [row] /\ u_is_teacher row = 0%Z).
Proof.
  split.
  - destruct (register_first_user_teacher toy_hash empty_db alice_form
                _ _ eq_refl) as [H _].
    destruct (H eq_refl) as [_ H'].
    destruct H' as (_ & row & Hu & Ht & _);
      [reflexivity | discriminate | discriminate |].
    exists row. split; [exact Hu | exact Ht].
  - destruct (register_first_user_teacher toy_hash alice_db bob_form
                _ _ eq_refl) as [_ H].
    destruct H as [H|(row & Hu & Ht)]; [discriminate | discriminate |].
    exists row. split; [exact Hu | exact Ht].
Defined.

Lemma register_forbidden_witness :
  register toy_hash bob_db (carol_form (Some 2%Z))
    = (Redirect ep_login flash_forbidden, bob_db)
  /\ register toy_hash bob_db (carol_form None)
     = (Redirect ep_login flash_forbidden, bob_db).
Proof.
  split; apply register_forbidden; try discriminate.
  intros u H. injection H as <-. reflexivity.
Defined.

Lemma register_duplicate_username_witness :
  register toy_hash bob_db bob_again_form
    = (RenderRegister false flash_duplicate, bob_db)
  /\ exists d' row,
       register toy_hash bob_db capital_bob_form
         = (Redirect ep_teacher_panel (flash_created false), d')
       /\ users d' = users bob_db ++ [row]
       /\ u_username row = lit "Bob".
Proof.
  split.
  - destruct (register_duplicate_username toy_hash bob_db bob_again_form)
      as [_ H].
    destruct (H _ eq_refl eq_refl eq_refl) as [Hdup _];
      [discriminate | discriminate |].
    apply Hdup. cbn. tauto.
  - destruct (register_duplicate_username toy_hash bob_db capital_bob_form)
      as [_ H].
    destruct (H _ eq_refl eq_refl eq_refl) as [_ Hnew];
      [discriminate | discriminate |].
    apply Hnew. cbn. intros [H'|[H'|[]]]; discriminate H'.
Defined.

Lemma api_initial_validation_witness :
  api_initial bob_db (draw_request None (Some (lit "draw a cat")))
    = (Json400 (lit "Missing sketch file"), bob_db)
  /\ api_initial bob_db
       (draw_request (Some (sketch (lit "image/png") ten_bytes)) None)
     = (Json400 (lit "Missing prompt"), bob_db)
  /\ exists row d',
       api_initial bob_db cat_request = (Json200 (row_json row), d')
       /\ conversations d' = conversations bob_db ++ [row]
       /\ c_user_id row = 2%Z
       /\ c_prompt row = lit "draw a cat"
       /\ c_created_at row = lit "2024-05-01T10:00:00.250000".
Proof.
  split; [|split].
  - apply (api_initial_validation bob_db
             (draw_request None (Some (lit "draw a cat"))) _ eq_refl).
    reflexivity.
  - apply (api_initial_validation bob_db
             (draw_request (Some (sketch (lit "image/png") ten_bytes)) None)
             _ eq_refl); reflexivity.
  - apply (api_initial_validation bob_db cat_request _ eq_refl);
      [reflexivity | discriminate].
Defined.

Lemma api_initial_default_mime_witness :
  exists row d',
    api_initial cat_db alice_request = (Json200 (row_json row), d')
    /\ conversations d' = conversations cat_db ++ [row]
    /\ c_input_image row = lit "data:image/png;base64,aGk="
    /\ c_output_image row = lit "data:image/png;base64,aGk=".
Proof.
  apply (api_initial_default_mime generate_image_from_sketch
           cat_db alice_request _ _ eq_refl eq_refl eq_refl eq_refl).
  discriminate.
Defined.

Lemma prompt_stripped_before_use_witness :
  api_initial bob_db
    (draw_request (Some (sketch (lit "image/png") ten_bytes))
                  (Some [32; 9; 160; 8195]))
    = (Json400 (lit "Missing prompt"), bob_db)
  /\ api_continue cat_db
       (continue_request_with 2 (JStr [32; 10; 12288]) (JStr cat_output))
     = (Json400 (lit "Missing prompt"), cat_db)
  /\ trimmed (lit "a house") = true.
Proof.
  destruct (prompt_stripped_before_use bob_db) as (Hini & _).
  destruct (prompt_stripped_before_use cat_db) as (_ & Hcon & Hok & _).
  split; [|split].
  - apply (Hini (draw_request (Some (sketch (lit "image/png") ten_bytes))
                              (Some [32; 9; 160; 8195])) _ eq_refl).
    reflexivity.
  - apply (Hcon (continue_request_with 2 (JStr [32; 10; 12288])
                                       (JStr cat_output))
                _ _ _ eq_refl eq_refl eq_refl).
    reflexivity.
  - destruct (Hok alice_request _ _ eq_refl) as (_ & Ht & _). exact Ht.
Defined.


Lemma api_my_history_own_rows_witness :
  exists rows,
    api_my_history toy_datetime two_owner_db (Some 2%Z)
      = Json200 (List.map row_json rows)
    /\ Permutation rows
         (filter (fun r => Z.eqb (c_user_id r) 2) (conversations two_owner_db))
    /\ (forall r, In r rows <->
                  In r (conversations two_owner_db) /\ c_user_id r = 2%Z)
    /\ Sorted (key_le (fun r => toy_datetime (c_created_at r))) rows.
Proof.
  apply (api_my_history_own_rows toy_datetime two_owner_db 2 _ eq_refl).
Defined.

Example ex_bob_history :
  option_map (List.map id)
    match api_my_history toy_datetime two_owner_db (Some 2%Z) with
    | Json200 h => Some h
    | _ => None
    end
  = Some [1%Z; 3%Z].
Proof. vm_compute. reflexivity. Qed.

(* ================================================================= *)
(** ** Where the code leaves the specification *)


(** What continue does with that data URL: it answers 200, having
    decoded eight bytes where the upload had two. *)
Example ex_comma_continue :
  b64decode (lit "xy;base64,aGk=")
    = Ok [Byte.xc7; Byte.x26; Byte.xda; Byte.xb1; Byte.xee; Byte.xb8;
          Byte.x68; Byte.x69]
  /\ exists r d2,
       api_continue (snd (api_initial bob_db comma_request))
         (continue_request_with 2 (JStr (lit "again"))
            (JStr (lit "data:image/png,xy;base64,aGk=")))
       = (Json200 r, d2)
       /\ outputImage r = lit "data:image/png;base64,xybase64aGk=".
Proof.
  split; [vm_compute; reflexivity|].
  do 2 eexists. split; [vm_compute; reflexivity | reflexivity].
Qed.

(** C8 as the specification words it, for every empty sketch, does not
    hold: [if not sketch_file] looks at the file name only, and the
    bytes read afterwards are never tested.  A named upload of zero
    bytes with a prompt is answered 200 and a row is stored. *)
Lemma api_initial_empty_sketch_accepted :
  ~ (forall d req u f,
       current_user d (ini_session req) = Some u ->
       files_sketch req = Some f ->
       content f = [] ->
       exists msg, api_initial d req = (Json400 msg, d)).
Proof.
  intros H.
  destruct (H bob_db
              (draw_request (Some (sketch (lit "image/png") []))
                            (Some (lit "draw a cat")))
              _ _ eq_refl eq_refl eq_refl) as (msg & E).
  vm_compute in E. discriminate E.
Qed.

(** What the handler does with that upload. *)
Example ex_empty_sketch :
  exists r d',
    api_initial bob_db
      (draw_request (Some (sketch (lit "image/png") []))
                    (Some (lit "draw a cat")))
    = (Json200 r, d')
    /\ inputImage r = lit "data:image/png;base64,"
    /\ outputImage r = lit "data:image/png;base64,"
    /\ List.length (conversations d')
       = S (List.length (conversations bob_db)).
Proof.
  eexists _, _. split; [vm_compute; reflexivity|]. repeat split.
Qed.

(** Whatever passes the [try] block reaches [b64decode] outside of it:
    an exception raised there leaves the handler. *)
Lemma api_continue_decode_error d req u body p s mime b64 e :
  current_user d (con_session req) = Some u ->
  con_body req = Some body ->
  json_get body (lit "prompt") = Ok (JStr p) ->
  strip p <> [] ->
  json_get body (lit "lastImage") = Ok (JStr s) ->
  s <> [] ->
  parse_data_url s = Ok (mime, b64) ->
  b64decode b64 = Raise e ->
  api_continue d req = (Crash e, d).
Proof.
  intros Hu Hb Hp Hp0 Hl Hs Hparse Hdec.
  unfold api_continue, api_continue_with.
  rewrite Hu, Hb, (json_get_str_truthy _ _ _ Hp), (json_prompt_str _ _ Hp), Hl.
  apply truthy_true in Hp0, Hs. rewrite Hp0. cbn [negb json_truthy].
  rewrite Hs. cbn [negb try_parse]. rewrite Hparse. cbn [bind].
  now rewrite Hdec.
Qed.

(** A [lastImage] without a comma is turned down with 400. *)
Lemma api_continue_no_comma d req u body p s :
  current_user d (con_session req) = Some u ->
  con_body req = Some body ->
  json_get body (lit "prompt") = Ok (JStr p) ->
  strip p <> [] ->
  json_get body (lit "lastImage") = Ok (JStr s) ->
  s <> [] ->
  ~ In (ord ",") s ->
  api_continue d req = (Json400 (lit "Invalid lastImage data URL"), d).
Proof.
  intros Hu Hb Hp Hp0 Hl Hs Hc.
  unfold api_continue, api_continue_with.
  rewrite Hu, Hb, (json_get_str_truthy _ _ _ Hp), (json_prompt_str _ _ Hp), Hl.
  apply truthy_true in Hp0, Hs. rewrite Hp0. cbn [negb json_truthy].
  rewrite Hs. cbn [negb try_parse]. unfold parse_data_url.
  now rewrite (split1_no_sep (ord ",") s Hc).
Qed.

(** C4 at its failing input: a well-shaped data URL whose payload is the
    single character "A" is not answered 400; [b64decode] raises
    [binascii.Error] after the [try] block has ended and the exception
    leaves the handler.  No row is written. *)
Theorem api_continue_invalid_base64_crashes :
  api_continue cat_db
    (continue_request_with 2 (JStr (lit "again"))
       (JStr (lit "data:image/png;base64,A")))
  = (Crash BinasciiError, cat_db).
Proof. vm_compute. reflexivity. Qed.

Example ex_continue_malformed :
  (* no comma *)
  fst (api_continue cat_db
         (continue_request_with 2 (JStr (lit "again"))
            (JStr (lit "data:image/png;base64"))))
    = Json400 (lit "Invalid lastImage data URL")
  (* no "data:" in front *)
  /\ fst (api_continue cat_db
            (continue_request_with 2 (JStr (lit "again"))
               (JStr (lit "image/png;base64,aGk="))))
     = Json400 (lit "Invalid lastImage data URL")
  (* not a string at all *)
  /\ fst (api_continue cat_db
            (continue_request_with 2 (JStr (lit "again")) (JNum 7)))
     = Json400 (lit "Invalid lastImage data URL")
  (* a payload with a character outside ASCII *)
  /\ fst (api_continue cat_db
            (continue_request_with 2 (JStr (lit "again"))
               (JStr (lit "data:image/png;base64," ++ [233]))))
     = Crash ValueError.
Proof. vm_compute. repeat split. Qed.

(* ================================================================= *)
(** ** Data URLs taken apart *)

Import Pages Run DataUrl.





Lemma split_app_sep sep a b :
  ~ In sep a -> split sep (a ++ sep :: b) = a :: split sep b.
Proof.
  induction a as [|c a IH]; simpl; intros H.
  - now rewrite N.eqb_refl.
  - destruct (N.eqb_spec c sep) as [->|Hne]; [tauto|].
    rewrite IH by tauto. reflexivity.
Qed.

(** [split1] either finds no separator or cuts at the first one. *)
Lemma split1_cases sep s :
  (~ In sep s /\ split1 sep s = [s])
  \/ exists a b, s = a ++ sep :: b /\ ~ In sep a /\ split1 sep s = [a; b].
Proof.
  induction s as [|c s IH]; simpl.
  - left. split; [tauto | reflexivity].
  - destruct (N.eqb_spec c sep) as [->|Hne].
    + right. exists [], s. repeat split. simpl. tauto.
    + destruct IH as [[Hn E]|(a & b & -> & Hn & E)]; rewrite E.
      * left. split; [intros [H|H]; [congruence | tauto] | reflexivity].
      * right. exists (c :: a), b. repeat split.
        simpl. intros [H|H]; [congruence | tauto].
Qed.

(** What the [try] block accepts: a comma somewhere, and a colon in the
    head.  Neither the scheme nor the base64 marker is looked at. *)
Lemma parse_data_url_cases s :
  (~ In (ord ",") s /\ parse_data_url s = Raise ValueError)
  \/ (In (ord ",") s /\ ~ In (ord ":") (url_head s)
      /\ parse_data_url s = Raise IndexError)
  \/ (In (ord ",") s /\ In (ord ":") (url_head s)
      /\ exists h m b,
           s = h ++ ord "," :: b /\ ~ In (ord ",") h
           /\ parse_data_url s = Ok (m, b)).
Proof.
  unfold parse_data_url, url_head.
  destruct (split1_cases (ord ",") s) as [[Hn E]|(h & b & -> & Hn & E)];
    rewrite E; [left; now split | right]. cbn [hd].
  assert (In (ord ",") (h ++ ord "," :: b)) as Hin
      by (apply in_or_app; right; now left).
  destruct (in_dec N.eq_dec (ord ":") (hd [] (split (ord ";") h))) as [Hc|Hc].
  - right. split; [exact Hin|]. split; [exact Hc|].
    destruct (split_two _ _ Hc) as (x & m & l & Em). rewrite Em. cbn.
    now exists h, m, b.
  - left. split; [exact Hin|]. split; [exact Hc|].
    now rewrite (split_no_sep _ _ Hc).
Qed.


Lemma data_url_cut mime payload :
  data_url mime payload
  = (lit "data" ++ ord ":" :: mime ++ ord ";" :: lit "base64")
    ++ ord "," :: payload.
Proof.
  unfold data_url. cbn. rewrite <- app_assoc. reflexivity.
Qed.

Lemma not_in_lit_data c : c <> 100 -> c <> 97 -> c <> 116 -> ~ In c (lit "data").
Proof. cbn. intuition congruence. Qed.

Lemma parse_data_url_clean mime payload :
  clean_mime mime ->
  parse_data_url (data_url mime payload) = Ok (mime, payload).
Proof.
  intros (Hc & Hs & Hk). unfold parse_data_url.
  rewrite data_url_cut, split1_app.
  - replace (lit "data" ++ ord ":" :: mime ++ ord ";" :: lit "base64")
      with ((lit "data" ++ ord ":" :: mime) ++ ord ";" :: lit "base64")
      by (now rewrite <- app_assoc).
    rewrite split_app_sep.
    + cbn [hd]. rewrite split_app_sep by (now apply not_in_lit_data).
      rewrite (split_no_sep _ _ Hk). reflexivity.
    + rewrite in_app_iff. intros [H|[H|H]]; [|discriminate H|tauto].
      revert H. now apply not_in_lit_data.
  - rewrite in_app_iff. intros [H|[H|H]]; [|discriminate H|].
    + revert H. now apply not_in_lit_data.
    + apply in_app_iff in H as [H|H]; [tauto|].
      cbn in H. repeat (destruct H as [H|H]; [discriminate H|]). exact H.
Qed.

(** X1.  A data URL built, as both endpoints build theirs, from a mime
    type without comma, semicolon or colon is taken apart by the [try]
    block of continue into that mime type and that payload, whatever
    the payload is. *)
Theorem parse_data_url_round_trip mime payload :
  clean_mime mime ->
  parse_data_url (data_url mime payload) = Ok (mime, payload).
Proof. exact (parse_data_url_clean mime payload). Qed.

(* ================================================================= *)
(** ** What a request does to the store *)

(** The store with one more user row. *)
Lemma insert_user_ok d name h flag d' :
  insert_user d name h flag = Ok d' ->
  ~ In name (List.map u_username (users d))
  /\ d' = {| users := users d ++ [{| u_id := (users_seq d + 1)%Z;
                                     u_username := name;
                                     u_password_hash := h;
                                     u_is_teacher := flag |}];
             users_seq := (users_seq d + 1)%Z;
             conversations := conversations d;
             conversations_seq := conversations_seq d |}.
Proof.
  unfold insert_user.
  destruct (existsb _ (users d)) eqn:E; [discriminate|].
  intros [= <-]. split; [now apply existsb_username_not_In | reflexivity].
Qed.

(** A registration either leaves the store alone or inserts the one
    row the form describes. *)
Lemma register_effect hash d req resp d' :
  register hash d req = (resp, d') ->
  d' = d
  \/ exists name flag,
       name = strip (or_empty (form_username req))
       /\ name <> []
       /\ (flag = 0%Z \/ flag = 1%Z)
       /\ (users d = [] -> flag = 1%Z)
       /\ or_empty (form_password req) <> []
       /\ insert_user d name (hash (or_empty (form_password req))) flag
          = Ok d'.
Proof.
  unfold register.
  destruct (negb _ && _); [intros [= _ <-]; now left|].
  destruct (reg_method req); [intros [= _ <-]; now left|].
  unfold register_post.
  destruct (truthy (strip (or_empty (form_username req)))) eqn:Hn;
    [|intros [= _ <-]; now left].
  destruct (truthy (or_empty (form_password req))) eqn:Hpw;
    [|intros [= _ <-]; now left].
  cbn [negb orb].
  destruct (insert_user _ _ _ _) as [d2|e] eqn:Hins.
  - intros H. right.
    assert (d2 = d') as -> by (destruct (Z.eqb _ 0); now injection H).
    eexists _, _. split; [reflexivity|]. split; [now apply truthy_true|].
    split; [|split; [|split; [now apply truthy_true | exact Hins]]].
    + destruct (if Z.eqb (get_user_count d) 0 then true else _); tauto.
    + intros Hz. now rewrite (proj2 (user_count_zero d) Hz).
  - intros H. left. destruct e; now injection H.
Qed.

(** A turn answers 200 and appends its row. *)
Lemma store_turn_effect d u p input result now :
  store_turn d u p input result now
  = (Json200 (row_json (turn_row d u p input result now)),
     {| users := users d;
        users_seq := users_seq d;
        conversations :=
          conversations d ++ [turn_row d u p input result now];
        conversations_seq := (conversations_seq d + 1)%Z |}).
Proof. reflexivity. Qed.

Lemma api_initial_effect d req resp d' :
  api_initial d req = (resp, d') ->
  (d' = d /\ forall r, resp <> Json200 r)
  \/ turn_of d (ini_session req) resp d'.
Proof.
  unfold api_initial, api_initial_with.
  destruct (current_user d (ini_session req)) as [u|] eqn:Hu;
    [|intros [= <- <-]; left; split; [reflexivity | discriminate]].
  destruct (files_sketch req) as [f|];
    [|intros [= <- <-]; left; split; [reflexivity | discriminate]].
  destruct (truthy (filename f));
    [|intros [= <- <-]; left; split; [reflexivity | discriminate]].
  destruct (truthy (strip (or_empty (form_prompt req)))) eqn:Hp;
    [|intros [= <- <-]; left; split; [reflexivity | discriminate]].
  cbn [negb]. intros H. right.
  exists u, (strip (or_empty (form_prompt req))). eexists _, _, _.
  split; [exact Hu|].
  split; [now apply truthy_true|]. split; [apply strip_trimmed|].
  symmetry. exact H.
Qed.

Lemma api_continue_effect d req resp d' :
  api_continue d req = (resp, d') ->
  (d' = d /\ forall r, resp <> Json200 r)
  \/ turn_of d (con_session req) resp d'.
Proof.
  unfold api_continue, api_continue_with.
  destruct (current_user d (con_session req)) as [u|] eqn:Hu;
    [|intros [= <- <-]; left; split; [reflexivity | discriminate]].
  destruct (con_body req) as [body|];
    [|intros [= <- <-]; left; split; [reflexivity | discriminate]].
  destruct (json_prompt _) as [p|] eqn:Hp;
    [|intros [= <- <-]; left; split; [reflexivity | discriminate]].
  destruct (json_get _ (lit "lastImage")) as [v|];
    [|intros [= <- <-]; left; split; [reflexivity | discriminate]].
  destruct (truthy p) eqn:Ht;
    [|intros [= <- <-]; left; split; [reflexivity | discriminate]].
  destruct (json_truthy v);
    [|intros [= <- <-]; left; split; [reflexivity | discriminate]].
  cbn [negb].
  destruct (try_parse v) as [[s [mime b64]]|];
    [|intros [= <- <-]; left; split; [reflexivity | discriminate]].
  destruct (b64decode b64) as [image|];
    [|intros [= <- <-]; left; split; [reflexivity | discriminate]].
  intros H. right. exists u, p. eexists _, _, _. split; [exact Hu|].
  split; [now apply truthy_true|].
  split; [exact (json_prompt_trimmed _ _ Hp)|]. symmetry. exact H.
Qed.

(* ================================================================= *)
(** ** Invariants of the store *)

Lemma keys_upto_S n : keys_upto (S n) = keys_upto n ++ [Z.of_nat (S n)].
Proof.
  unfold keys_upto. rewrite seq_S, map_app. reflexivity.
Qed.

Lemma keys_upto_In n k : In k (keys_upto n) <-> (1 <= k <= Z.of_nat n)%Z.
Proof.
  unfold keys_upto. rewrite in_map_iff. split.
  - intros (i & <- & Hi). apply in_seq in Hi. lia.
  - intros H. exists (Z.to_nat k). split; [lia | apply in_seq; lia].
Qed.

Lemma keys_upto_NoDup n : NoDup (keys_upto n).
Proof.
  unfold keys_upto. apply Finite.Injective_map_NoDup; [|apply seq_NoDup].
  intros a b H. lia.
Qed.

Lemma NoDup_snoc {A} (l : list A) x : NoDup l -> ~ In x l -> NoDup (l ++ [x]).
Proof.
  induction 1 as [|y l Hy Hl IH]; simpl; intros Hx.
  - repeat constructor. tauto.
  - constructor; [|apply IH; tauto].
    rewrite in_app_iff. simpl. intros [H|[H|[]]]; [tauto|]. subst. tauto.
Qed.

Lemma length_snoc {A} (l : list A) x : List.length (l ++ [x]) = S (List.length l).
Proof. rewrite length_app. simpl. lia. Qed.

Lemma current_user_row d session u :
  current_user d session = Some u ->
  exists row,
    In row (users d) /\ session = Some (u_id row)
    /\ user_id u = u_id row /\ username u = u_username row
    /\ is_teacher u = negb (Z.eqb (u_is_teacher row) 0).
Proof.
  unfold current_user, load_user, select_user_by_id.
  destruct session as [uid|]; [|discriminate].
  destruct (find _ (users d)) as [row|] eqn:E; [|discriminate].
  intros [= <-]. apply find_some in E as [Hin E]. apply Z.eqb_eq in E.
  exists row. cbn. repeat split; congruence.
Qed.

Lemma insert_user_store_ok d name h flag d' :
  store_ok d ->
  insert_user d name h flag = Ok d' ->
  name <> [] -> trimmed name = true ->
  (flag = 0%Z \/ flag = 1%Z) ->
  (users d = [] -> flag = 1%Z) ->
  store_ok d'.
Proof.
  intros [Hid Hseq Hnd Hnames Hflags Hfirst Hcid Hcseq Hown Hprompt]
         Hins Hn Ht Hf Hz.
  apply insert_user_ok in Hins as [Hfresh ->].
  constructor; cbn [users users_seq conversations conversations_seq].
  - rewrite map_app, length_snoc, keys_upto_S, Hid, Hseq. cbn [map u_id].
    do 2 f_equal. lia.
  - rewrite length_snoc, Hseq. lia.
  - rewrite map_app. now apply NoDup_snoc.
  - apply Forall_app. split; [exact Hnames|].
    constructor; [split; assumption | constructor].
  - apply Forall_app. split; [exact Hflags|].
    constructor; [exact Hf | constructor].
  - intros r. destruct (users d) as [|r0 rest] eqn:E; cbn.
    + intros [= <-]. cbn. now apply Hz.
    + intros [= <-]. now apply Hfirst.
  - exact Hcid.
  - exact Hcseq.
  - eapply Forall_impl; [|exact Hown]. cbn. intros c Hc.
    rewrite map_app. apply in_or_app. now left.
  - exact Hprompt.
Qed.

Lemma store_turn_store_ok d session u p input result now resp d' :
  store_ok d ->
  current_user d session = Some u ->
  p <> [] -> trimmed p = true ->
  (resp, d') = store_turn d u p input result now ->
  store_ok d'.
Proof.
  intros [Hid Hseq Hnd Hnames Hflags Hfirst Hcid Hcseq Hown Hprompt]
         Hu Hp Ht E.
  rewrite store_turn_effect in E. injection E as _ ->.
  destruct (current_user_row d session u Hu) as (row & Hin & _ & Huid & _).
  constructor; cbn [users users_seq conversations conversations_seq];
    try assumption.
  - rewrite map_app, length_snoc, keys_upto_S, Hcid.
    cbn [map c_id turn_row]. rewrite Hcseq. do 2 f_equal. lia.
  - rewrite length_snoc, Hcseq. lia.
  - apply Forall_app. split; [exact Hown|].
    constructor; [|constructor]. cbn [c_user_id turn_row].
    rewrite Huid. now apply in_map.
  - apply Forall_app. split; [exact Hprompt|].
    constructor; [split; assumption | constructor].
Qed.

Lemma empty_db_ok : store_ok empty_db.
Proof.
  constructor; cbn; try reflexivity; try constructor. discriminate.
Qed.

(** Every request leaves a well-formed store well-formed. *)
Lemma handle_store_ok hash d rq : store_ok d -> store_ok (handle hash d rq).
Proof.
  intros Hok. destruct rq as [r|r|r]; cbn.
  - destruct (register hash d r) as [resp d'] eqn:E. cbn.
    apply register_effect in E
      as [->|(name & flag & -> & Hn & Hf & Hz & _ & Hins)]; [exact Hok|].
    eapply insert_user_store_ok; eauto. apply strip_trimmed.
  - destruct (api_initial d r) as [resp d'] eqn:E. cbn.
    apply api_initial_effect in E
      as [[-> _]|(u & p & i & res & now & Hu & Hp & Ht & E)]; [exact Hok|].
    eapply store_turn_store_ok; eauto.
  - destruct (api_continue d r) as [resp d'] eqn:E. cbn.
    apply api_continue_effect in E
      as [[-> _]|(u & p & i & res & now & Hu & Hp & Ht & E)]; [exact Hok|].
    eapply store_turn_store_ok; eauto.
Qed.

Lemma fold_handle_store_ok hash rqs : forall d,
  store_ok d -> store_ok (fold_left (handle hash) rqs d).
Proof.
  induction rqs as [|rq rqs IH]; cbn; intros d Hok; [exact Hok|].
  apply IH, handle_store_ok, Hok.
Qed.

Lemma run_store_ok hash rqs : store_ok (run hash rqs).
Proof. apply fold_handle_store_ok, empty_db_ok. Qed.

(* ================================================================= *)
(** ** More on [/api/continue] *)

(** X2.  With a caller logged in, a prompt and a non-empty string as
    [lastImage], continue answers 400 "Invalid lastImage data URL"
    exactly when the string has no comma, or no colon in front of its
    first comma and first semicolon.  The scheme in front of the colon
    and the text behind the semicolon are not looked at. *)
Theorem api_continue_invalid_iff d req u body p s :
  current_user d (con_session req) = Some u ->
  con_body req = Some body ->
  json_get body (lit "prompt") = Ok (JStr p) ->
  strip p <> [] ->
  json_get body (lit "lastImage") = Ok (JStr s) ->
  s <> [] ->
  api_continue d req = (Json400 (lit "Invalid lastImage data URL"), d)
  <-> ~ (In (ord ",") s /\ In (ord ":") (url_head s)).
Proof.
  intros Hu Hb Hp Hp0 Hl Hs.
  assert (api_continue d req =
            match parse_data_url s with
            | Raise _ => (Json400 (lit "Invalid lastImage data URL"), d)
            | Ok (mime, b64) =>
                match b64decode b64 with
                | Raise e => (Crash e, d)
                | Ok image =>
                    store_turn d u (strip p) s
                      (generate_image_from_sketch image mime (strip p))
                      (con_utcnow req)
                end
            end) as ->.
  { unfold api_continue, api_continue_with.
    rewrite Hu, Hb, (json_get_str_truthy _ _ _ Hp), (json_prompt_str _ _ Hp), Hl.
    apply truthy_true in Hp0, Hs. rewrite Hp0. cbn [negb json_truthy].
    rewrite Hs. cbn [negb try_parse].
    destruct (parse_data_url s) as [[m b]|]; reflexivity. }
  destruct (parse_data_url_cases s)
    as [[Hn ->]|[(Hc & Hk & ->)|(Hc & Hk & h & m & b & _ & _ & ->)]].
  - split; [tauto | reflexivity].
  - split; [tauto | reflexivity].
  - split; [|tauto]. destruct (b64decode b); [|discriminate].
    rewrite store_turn_effect. discriminate.
Qed.





(** X5.  A JSON body that is not a non-empty object: when it is falsy
    ([null], [false], [0], [""], an empty array or object) it counts as
    an empty object and the answer is 400 "Missing prompt"; when it is
    truthy (a number, [true], a string, an array) the lookup of
    "prompt" raises [AttributeError], which leaves the handler.  The
    store is unchanged either way. *)
Theorem api_continue_body_not_object d req u body :
  current_user d (con_session req) = Some u ->
  con_body req = Some body ->
  (forall k v m, body <> JObj ((k, v) :: m)) ->
  api_continue d req =
    (if json_truthy body then Crash AttributeError
     else Json400 (lit "Missing prompt"), d).
Proof.
  intros Hu Hb Hshape. unfold api_continue, api_continue_with.
  rewrite Hu, Hb.
  destruct body as [|b|z|s|l|m]; cbn [json_truthy].
  - reflexivity.
  - destruct b; reflexivity.
  - destruct (Z.eqb z 0); reflexivity.
  - destruct s; reflexivity.
  - destruct l; reflexivity.
  - destruct m as [|[k v] m]; [reflexivity|]. now destruct (Hshape k v m).
Qed.

(** X6.  The two fields are not treated alike.  A "prompt" that is
    truthy but not a string makes [strip] raise [AttributeError], which
    leaves the handler; a missing or falsy "lastImage" is answered 400
    "Missing lastImage (data URL)"; a "lastImage" that is truthy but
    not a string is caught by the [try] block and answered 400
    "Invalid lastImage data URL". *)
Theorem api_continue_field_types d req u body :
  current_user d (con_session req) = Some u ->
  con_body req = Some body ->
  json_truthy body = true ->
  (forall v,
     json_get body (lit "prompt") = Ok v ->
     json_truthy v = true -> (forall s, v <> JStr s) ->
     api_continue d req = (Crash AttributeError, d))
  /\ (forall p v,
        json_get body (lit "prompt") = Ok (JStr p) -> strip p <> [] ->
        json_get body (lit "lastImage") = Ok v ->
        (json_truthy v = false ->
         api_continue d req
           = (Json400 (lit "Missing lastImage (data URL)"), d))
        /\ (json_truthy v = true -> (forall s, v <> JStr s) ->
            api_continue d req
              = (Json400 (lit "Invalid lastImage data URL"), d))).
Proof.
  intros Hu Hb Hbody. split.
  - intros v Hv Ht Hns. unfold api_continue, api_continue_with, json_prompt.
    rewrite Hu, Hb, Hbody, Hv. cbn [bind]. rewrite Ht.
    destruct v; try reflexivity. now destruct (Hns s).
  - intros p v Hp Hp0 Hl. unfold api_continue, api_continue_with.
    rewrite Hu, Hb, Hbody, (json_prompt_str _ _ Hp), Hl.
    apply truthy_true in Hp0. rewrite Hp0. cbn [negb].
    split.
    + now intros ->.
    + intros -> Hns. cbn [negb].
      destruct v; try reflexivity. now destruct (Hns s).
Qed.

(* ================================================================= *)
(** ** Stores the handlers can build *)

(** X7.  However many requests are served on a fresh database, the
    first user row, when there is one, has id 1 and the teacher flag,
    and the user loaded under id 1 is a teacher. *)
Theorem run_first_user_teacher hash rqs r :
  hd_error (users (run hash rqs)) = Some r ->
  u_id r = 1%Z /\ u_is_teacher r = 1%Z
  /\ option_map is_teacher (load_user (run hash rqs) 1) = Some true.
Proof.
  intros H. destruct (run_store_ok hash rqs) as [Hid _ _ _ _ Hfirst _ _ _ _].
  pose proof (Hfirst r H) as Ht.
  destruct (users (run hash rqs)) as [|r0 rest] eqn:E; [discriminate|].
  injection H as ->. cbn in Hid. injection Hid as Hr _.
  split; [exact Hr|]. split; [exact Ht|].
  unfold load_user, select_user_by_id. rewrite E. cbn.
  rewrite Hr. cbn. now rewrite Ht.
Qed.

(** X8.  In every store the handlers can build from a fresh database
    the user names are pairwise different, non-empty, and free of white
    space at both ends. *)
Theorem run_usernames hash rqs :
  NoDup (List.map u_username (users (run hash rqs)))
  /\ Forall (fun r => u_username r <> [] /\ trimmed (u_username r) = true)
            (users (run hash rqs)).
Proof.
  destruct (run_store_ok hash rqs) as [_ _ Hnd Hnames _ _ _ _ _ _].
  now split.
Qed.

(** X9.  In every store the handlers can build from a fresh database
    the ids of both tables are 1, 2, ..., n in row order, so never
    repeated, and the next id handed out is n + 1. *)
Theorem run_ids_sequential hash rqs :
  let d := run hash rqs in
  List.map u_id (users d) = keys_upto (List.length (users d))
  /\ users_seq d = Z.of_nat (List.length (users d))
  /\ List.map c_id (conversations d)
     = keys_upto (List.length (conversations d))
  /\ conversations_seq d = Z.of_nat (List.length (conversations d))
  /\ NoDup (List.map u_id (users d))
  /\ NoDup (List.map c_id (conversations d)).
Proof.
  cbv zeta.
  destruct (run_store_ok hash rqs) as [Hid Hseq _ _ _ _ Hcid Hcseq _ _].
  repeat split; try assumption.
  - rewrite Hid. apply keys_upto_NoDup.
  - rewrite Hcid. apply keys_upto_NoDup.
Qed.

(** X10.  In every store the handlers can build from a fresh database
    each conversation row belongs to a user that exists, although the
    schema's foreign key is never enforced: the owner can be selected
    by id. *)
Theorem run_owner_exists hash rqs c :
  In c (conversations (run hash rqs)) ->
  exists row,
    select_user_by_id (run hash rqs) (c_user_id c) = Some row
    /\ u_id row = c_user_id c.
Proof.
  intros Hc. destruct (run_store_ok hash rqs) as [_ _ _ _ _ _ _ _ Hown _].
  rewrite Forall_forall in Hown. specialize (Hown c Hc).
  apply in_map_iff in Hown as (row & Hid & Hin).
  unfold select_user_by_id.
  destruct (find (fun r => Z.eqb (u_id r) (c_user_id c))
                 (users (run hash rqs))) as [row'|] eqn:E.
  - exists row'. split; [reflexivity|].
    apply find_some in E as [_ E]. now apply Z.eqb_eq.
  - exfalso. apply (find_none _ _ E) in Hin.
    rewrite Hid, Z.eqb_refl in Hin. discriminate.
Qed.

(** X11.  A request only ever appends: whatever the store and the
    request, the rows of both tables are kept, unchanged and in place,
    and at most one row is added, to one table. *)
Theorem handle_appends hash d rq :
  exists us cs,
    users (handle hash d rq) = users d ++ us
    /\ conversations (handle hash d rq) = conversations d ++ cs
    /\ (List.length us + List.length cs <= 1)%nat.
Proof.
  destruct rq as [r|r|r]; cbn.
  - destruct (register hash d r) as [resp d'] eqn:E. cbn.
    apply register_effect in E
      as [->|(name & flag & _ & _ & _ & _ & _ & Hins)].
    + exists [], []. rewrite !app_nil_r. repeat split. cbn. lia.
    + apply insert_user_ok in Hins as [_ ->]. cbn.
      eexists [_], []. rewrite app_nil_r. repeat split. cbn. lia.
  - destruct (api_initial d r) as [resp d'] eqn:E. cbn.
    apply api_initial_effect in E
      as [[-> _]|(u & p & i & res & now & _ & _ & _ & E)].
    + exists [], []. rewrite !app_nil_r. repeat split. cbn. lia.
    + rewrite store_turn_effect in E. injection E as _ ->. cbn.
      eexists [], [_]. rewrite app_nil_r. repeat split. cbn. lia.
  - destruct (api_continue d r) as [resp d'] eqn:E. cbn.
    apply api_continue_effect in E
      as [[-> _]|(u & p & i & res & now & _ & _ & _ & E)].
    + exists [], []. rewrite !app_nil_r. repeat split. cbn. lia.
    + rewrite store_turn_effect in E. injection E as _ ->. cbn.
      eexists [], [_]. rewrite app_nil_r. repeat split. cbn. lia.
Qed.

(* ================================================================= *)
(** ** Logging in *)

Lemma find_snoc {A} (f : A -> bool) l y :
  (forall x, In x l -> f x = false) ->
  find f (l ++ [y]) = if f y then Some y else None.
Proof.
  induction l as [|x l IH]; cbn; intros H; [reflexivity|].
  rewrite (H x (or_introl eq_refl)). apply IH. intros z Hz. apply H. now right.
Qed.

(** X12.  Registration and login fit together.  Let the checker accept
    every password against its own hash.  Once the registration route
    has inserted a row into a well-formed store, an anonymous POST to
    login with the same user name and password fields is sent to the
    dashboard with the session set to the id of that row, and the user
    loaded for that session is the one just created, with the teacher
    flag as stored. *)
Theorem login_after_register hash check d req resp d' row lreq :
  (forall p, check (hash p) p = true) ->
  store_ok d ->
  register hash d req = (resp, d') ->
  users d' = users d ++ [row] ->
  current_user d' (log_session lreq) = None ->
  log_method lreq = POST ->
  log_username lreq = form_username req ->
  log_password lreq = form_password req ->
  login check d' lreq = (Go to_dashboard None, Some (u_id row))
  /\ exists u,
       current_user d' (Some (u_id row)) = Some u
       /\ username u = u_username row
       /\ is_teacher u = negb (Z.eqb (u_is_teacher row) 0).
Proof.
  intros Hcheck Hok Hreg Hrow Hanon Hm Hn Hp.
  apply register_effect in Hreg
    as [->|(name & flag & -> & Hname & _ & _ & Hpw & Hins)].
  { apply (f_equal (@List.length _)) in Hrow.
    rewrite length_snoc in Hrow. lia. }
  apply insert_user_ok in Hins as [Hfresh ->]. cbn in Hrow.
  apply app_inj_tail in Hrow as [_ <-].
  destruct Hok as [Hid Hseq _ _ _ _ _ _ _ _].
  split.
  - unfold login. rewrite Hanon, Hm, Hn, Hp.
    apply truthy_true in Hname, Hpw. rewrite Hname, Hpw. cbn [negb orb].
    unfold select_user_by_username. cbn [users].
    rewrite find_snoc.
    + cbn [u_username]. rewrite str_eqb_refl. cbn [u_password_hash].
      rewrite Hcheck. reflexivity.
    + intros x Hx. apply str_eqb_neq. intros E. apply Hfresh.
      rewrite <- E. now apply in_map.
  - unfold current_user, load_user, select_user_by_id. cbn [users].
    rewrite find_snoc.
    + cbn [u_id]. rewrite Z.eqb_refl. eexists. repeat split.
    + intros x Hx. cbn. apply Z.eqb_neq. intros E.
      assert (In (u_id x) (List.map u_id (users d))) as Hin
          by now apply in_map.
      rewrite Hid in Hin. apply keys_upto_In in Hin. lia.
Qed.

(** X13.  Login hands out a session only for a password that passes:
    whenever it leaves a session other than the one it was called with,
    the caller was anonymous, the answer is the redirect to the
    dashboard, and the new session is the id of a stored row whose name
    is the stripped user name field and whose hash the checker accepted
    for the password field. *)
Theorem login_sound check d req resp session' :
  login check d req = (resp, session') ->
  session' <> log_session req ->
  current_user d (log_session req) = None
  /\ resp = Go to_dashboard None
  /\ exists row,
       In row (users d)
       /\ session' = Some (u_id row)
       /\ u_username row = strip (or_empty (log_username req))
       /\ check (u_password_hash row) (or_empty (log_password req)) = true.
Proof.
  unfold login.
  destruct (current_user d (log_session req)); [now intros [= _ <-]|].
  destruct (log_method req); [now intros [= _ <-]|].
  destruct (negb _ || negb _); [now intros [= _ <-]|].
  unfold select_user_by_username.
  destruct (find _ (users d)) as [row|] eqn:E; [|now intros [= _ <-]].
  destruct (check _ _) eqn:Hc; cbn [negb]; [|now intros [= _ <-]].
  intros [= <- <-] _. apply find_some in E as [Hin E].
  apply str_eqb_eq in E. repeat split. now exists row.
Qed.

(* ================================================================= *)
(** ** The teacher's pages *)

Lemma text_le_refl a : text_le a a = true.
Proof.
  induction a as [|x a IH]; cbn; [reflexivity|].
  now rewrite N.eqb_refl, IH, orb_true_r.
Qed.

Lemma text_le_trans a : forall b c,
  text_le a b = true -> text_le b c = true -> text_le a c = true.
Proof.
  induction a as [|x a IH]; intros [|y b] [|z c]; cbn; try congruence.
  rewrite !orb_true_iff, !andb_true_iff, !N.ltb_lt, !N.eqb_eq.
  intros [H1|[H1 H2]] [H3|[H3 H4]].
  - left. lia.
  - left. lia.
  - left. lia.
  - right. split; [lia | eauto].
Qed.

Lemma roster_le_total a b : roster_le a b = false -> roster_le b a = true.
Proof.
  unfold roster_le.
  rewrite orb_false_iff, orb_true_iff, andb_false_iff, andb_true_iff.
  rewrite !Z.ltb_ge, !Z.ltb_lt, !Z.eqb_neq, !Z.eqb_eq.
  intros [H1 [H2|H2]].
  - left. lia.
  - destruct (Z.eq_dec (ro_is_teacher b) (ro_is_teacher a)) as [E|E];
      [right | left; lia].
    split; [exact E | now apply text_le_total].
Qed.

Lemma roster_le_trans a b c :
  roster_le a b = true -> roster_le b c = true -> roster_le a c = true.
Proof.
  unfold roster_le.
  rewrite !orb_true_iff, !andb_true_iff, !Z.ltb_lt, !Z.eqb_eq.
  intros [H1|[H1 H2]] [H3|[H3 H4]].
  - left. lia.
  - left. lia.
  - left. lia.
  - right. split; [lia | eapply text_le_trans; eauto].
Qed.

Section SortFacts.
Context {A : Type} (le : A -> A -> bool).
Hypothesis le_total : forall a b, le a b = false -> le b a = true.
Hypothesis le_trans :
  forall a b c, le a b = true -> le b c = true -> le a c = true.

Lemma insert_le_perm x l : Permutation (insert_le le x l) (x :: l).
Proof.
  induction l as [|y l IH]; cbn; [reflexivity|].
  destruct (le x y); [reflexivity|]. rewrite IH. apply perm_swap.
Qed.

Lemma sort_le_perm l : Permutation (sort_le le l) l.
Proof.
  induction l as [|x l IH]; cbn; [reflexivity|].
  rewrite insert_le_perm. now constructor.
Qed.

Lemma insert_le_sorted x l :
  StronglySorted (fun a b => le a b = true) l ->
  StronglySorted (fun a b => le a b = true) (insert_le le x l).
Proof.
  induction 1 as [|y l Hs IH Hall]; cbn.
  - repeat constructor.
  - destruct (le x y) eqn:E.
    + constructor; [now constructor|].
      constructor; [exact E|].
      eapply Forall_impl; [|exact Hall]. cbn. intros z Hz. eauto.
    + constructor; [exact IH|].
      apply (Permutation_Forall (Permutation_sym (insert_le_perm x l))).
      constructor; [now apply le_total | exact Hall].
Qed.

Lemma sort_le_sorted l :
  StronglySorted (fun a b => le a b = true) (sort_le le l).
Proof.
  induction l as [|x l IH]; cbn; [constructor|].
  now apply insert_le_sorted.
Qed.

End SortFacts.

(** X14.  For a teacher the roster page lists every user exactly once,
    each with the number of conversation rows that carry the user's id,
    teachers before the others, and within each group ascending by
    user name. *)
Theorem teacher_panel_roster d session u :
  current_user d session = Some u ->
  is_teacher u = true ->
  exists rows,
    teacher_panel d session = Page (teacher_html rows) None
    /\ Permutation rows (List.map (roster_entry d) (users d))
    /\ StronglySorted (fun a b => roster_le a b = true) rows
    /\ Forall (fun r => convo_count r = count_conversations d (ro_id r)) rows.
Proof.
  intros Hu Ht. exists (select_roster d).
  unfold teacher_panel. rewrite Hu, Ht. cbn [negb].
  split; [reflexivity|]. unfold select_roster.
  split; [apply sort_le_perm|].
  split; [apply sort_le_sorted;
          [exact roster_le_total | exact roster_le_trans]|].
  apply (Permutation_Forall (Permutation_sym (sort_le_perm _ _))).
  apply Forall_map, Forall_forall. reflexivity.
Qed.

(** X15.  The teacher's pages are for teachers only: whenever the
    roster route or the per-user route answers with a page, the caller
    is logged in and carries the teacher flag. *)
Theorem teacher_pages_gate datetime d session uid t fl :
  teacher_panel d session = Page t fl
  \/ teacher_user_view datetime d session uid = Page t fl ->
  exists u, current_user d session = Some u /\ is_teacher u = true.
Proof.
  unfold teacher_panel, teacher_user_view.
  destruct (current_user d session) as [u|];
    [|intros [H|H]; discriminate H].
  destruct (is_teacher u) eqn:Ht; [intros _; now exists u|].
  intros [H|H]; discriminate H.
Qed.



(* ================================================================= *)
(** ** What a turn changes for the readers *)

Lemma turn_of_user d session resp d' u :
  turn_of d session resp d' ->
  current_user d session = Some u ->
  exists p input result now,
    (resp, d') = store_turn d u p input result now.
Proof.
  intros (u' & p & i & res & now & Hu' & _ & _ & E) Hu.
  assert (u' = u) as -> by congruence. now exists p, i, res, now.
Qed.

Lemma store_turn_count d u p input result now resp d' uid :
  (resp, d') = store_turn d u p input result now ->
  count_conversations d' uid
  = (count_conversations d uid
     + if Z.eqb (user_id u) uid then 1 else 0)%Z.
Proof.
  rewrite store_turn_effect. intros [= _ ->].
  unfold count_conversations. cbn [conversations].
  rewrite filter_app, length_app. cbn [filter c_user_id turn_row].
  destruct (Z.eqb (user_id u) uid); cbn [List.length]; lia.
Qed.

(** X17.  A successful start or continue call adds one to the caller's
    conversation count, as the roster shows it, and leaves every other
    user's count as it was; a call that is not answered 200 and any
    registration change no count. *)
Theorem conversation_counts d uid :
  (forall req resp d' u,
     api_initial d req = (resp, d') ->
     current_user d (ini_session req) = Some u ->
     count_conversations d' uid
     = (count_conversations d uid
        + match resp with
          | Json200 _ => if Z.eqb (user_id u) uid then 1 else 0
          | _ => 0
          end)%Z)
  /\ (forall req resp d' u,
        api_continue d req = (resp, d') ->
        current_user d (con_session req) = Some u ->
        count_conversations d' uid
        = (count_conversations d uid
           + match resp with
             | Json200 _ => if Z.eqb (user_id u) uid then 1 else 0
             | _ => 0
             end)%Z)
  /\ (forall hash req,
        count_conversations (snd (register hash d req)) uid
        = count_conversations d uid).
Proof.
  split; [|split].
  - intros req resp d' u H Hu.
    apply api_initial_effect in H as [[-> Hn]|Hturn].
    + destruct resp; try lia. now destruct (Hn body).
    + destruct (turn_of_user _ _ _ _ u Hturn Hu) as (p & i & res & now & E).
      rewrite (store_turn_count _ _ _ _ _ _ _ _ uid E).
      rewrite store_turn_effect in E. now injection E as -> _.
  - intros req resp d' u H Hu.
    apply api_continue_effect in H as [[-> Hn]|Hturn].
    + destruct resp; try lia. now destruct (Hn body).
    + destruct (turn_of_user _ _ _ _ u Hturn Hu) as (p & i & res & now & E).
      rewrite (store_turn_count _ _ _ _ _ _ _ _ uid E).
      rewrite store_turn_effect in E. now injection E as -> _.
  - intros hash req. destruct (register hash d req) as [resp d'] eqn:E. cbn.
    apply register_effect in E
      as [->|(name & flag & _ & _ & _ & _ & _ & Hins)]; [reflexivity|].
    apply insert_user_ok in Hins as [_ ->]. reflexivity.
Qed.

Lemma order_by_snoc_perm {A} (key : A -> option str) l x :
  Permutation (order_by key (l ++ [x])) (x :: order_by key l).
Proof.
  rewrite !order_by_perm. rewrite Permutation_app_comm. reflexivity.
Qed.

Lemma current_user_same_users d d' session :
  users d' = users d -> current_user d' session = current_user d session.
Proof.
  intros E. unfold current_user, load_user, select_user_by_id. now rewrite E.
Qed.

Lemma store_turn_history datetime d u p input result now r d' :
  store_turn d u p input result now = (Json200 r, d') ->
  (forall uid, uid <> user_id u ->
     select_conversations datetime d' uid
     = select_conversations datetime d uid)
  /\ Permutation
       (List.map row_json (select_conversations datetime d' (user_id u)))
       (r :: List.map row_json (select_conversations datetime d (user_id u)))
  /\ users d' = users d.
Proof.
  rewrite store_turn_effect. intros [= <- <-].
  unfold select_conversations. cbn [conversations users].
  split; [|split; [|reflexivity]].
  - intros uid Hne. rewrite filter_app. cbn [filter c_user_id turn_row].
    destruct (Z.eqb_spec (user_id u) uid) as [E|_]; [congruence|].
    now rewrite app_nil_r.
  - rewrite filter_app. cbn [filter c_user_id turn_row].
    rewrite Z.eqb_refl.
    rewrite (Permutation_map row_json (order_by_snoc_perm _ _ _)).
    reflexivity.
Qed.

(** X18.  After a successful start or continue call the caller's
    history holds the record just returned in addition to what it held
    before, and the history of every other user is unchanged. *)
Theorem history_after_turn datetime d session u r d' :
  current_user d session = Some u ->
  (exists req, ini_session req = session
               /\ api_initial d req = (Json200 r, d'))
  \/ (exists req, con_session req = session
                  /\ api_continue d req = (Json200 r, d')) ->
  (exists h h',
     api_my_history datetime d session = Json200 h
     /\ api_my_history datetime d' session = Json200 h'
     /\ Permutation h' (r :: h))
  /\ (forall other v,
        current_user d other = Some v -> user_id v <> user_id u ->
        api_my_history datetime d' other = api_my_history datetime d other).
Proof.
  intros Hu H.
  assert (exists p input result now,
            store_turn d u p input result now = (Json200 r, d'))
    as (p & i & res & now & E).
  { destruct H as [(req & <- & H)|(req & <- & H)].
    - apply api_initial_effect in H as [[_ Hn]|Hturn];
        [now destruct (Hn r)|].
      destruct (turn_of_user _ _ _ _ u Hturn Hu) as (p & i & res & now & E).
      now exists p, i, res, now.
    - apply api_continue_effect in H as [[_ Hn]|Hturn];
        [now destruct (Hn r)|].
      destruct (turn_of_user _ _ _ _ u Hturn Hu) as (p & i & res & now & E).
      now exists p, i, res, now. }
  destruct (store_turn_history datetime _ _ _ _ _ _ _ _ E)
    as (Hother & Hown & Husers).
  split.
  - eexists _, _. unfold api_my_history.
    rewrite (current_user_same_users d d' session Husers), Hu.
    split; [reflexivity|]. split; [reflexivity | exact Hown].
  - intros other v Hv Hne. unfold api_my_history.
    rewrite (current_user_same_users d d' other Husers), Hv.
    now rewrite Hother.
Qed.

(* ================================================================= *)
(** ** The roster adds up *)

Lemma sum_counts_perm l l' :
  Permutation l l' -> sum_counts l = sum_counts l'.
Proof.
  induction 1; cbn; lia.
Qed.

Lemma owned_sum_nil ids : owned_sum ids [] = 0%Z.
Proof.
  unfold owned_sum.
  induction ids as [|i ids IH]; cbn [fold_right]; [reflexivity|].
  rewrite IH. reflexivity.
Qed.

Lemma owned_sum_step i ids cs :
  owned_sum (i :: ids) cs
  = (Z.of_nat (List.length (filter (fun c => Z.eqb (c_user_id c) i) cs))
     + owned_sum ids cs)%Z.
Proof. reflexivity. Qed.

Lemma owned_sum_cons_other ids c cs :
  ~ In (c_user_id c) ids -> owned_sum ids (c :: cs) = owned_sum ids cs.
Proof.
  induction ids as [|i ids IH]; intros H; [reflexivity|].
  rewrite !owned_sum_step, IH by (intros H'; apply H; now right).
  cbn [filter]. destruct (Z.eqb_spec (c_user_id c) i) as [E|_];
    [|reflexivity].
  exfalso. apply H. now left.
Qed.

Lemma owned_sum_cons_owner ids c cs :
  NoDup ids -> In (c_user_id c) ids ->
  owned_sum ids (c :: cs) = (1 + owned_sum ids cs)%Z.
Proof.
  induction 1 as [|i ids Hi Hnd IH]; [intros []|].
  intros Hin. rewrite !owned_sum_step. cbn [filter].
  destruct (Z.eqb_spec (c_user_id c) i) as [E|E].
  - rewrite owned_sum_cons_other by congruence. cbn [List.length]. lia.
  - destruct Hin as [Hin|Hin]; [congruence|]. rewrite (IH Hin). lia.
Qed.

Lemma owned_sum_total ids cs :
  NoDup ids ->
  Forall (fun c => In (c_user_id c) ids) cs ->
  owned_sum ids cs = Z.of_nat (List.length cs).
Proof.
  intros Hnd. induction 1 as [|c cs Hc Hcs IH].
  - apply owned_sum_nil.
  - rewrite (owned_sum_cons_owner ids c cs Hnd Hc), IH. cbn [List.length]. lia.
Qed.

Lemma sum_counts_roster d us :
  sum_counts (List.map (roster_entry d) us)
  = owned_sum (List.map u_id us) (conversations d).
Proof.
  induction us as [|u us IH]; [reflexivity|].
  cbn [List.map sum_counts]. rewrite owned_sum_step, IH. reflexivity.
Qed.

(** X19.  In every store the handlers can build from a fresh database
    the counts of the roster add up to the number of conversation
    rows: every row is counted for exactly one user. *)
Theorem run_roster_total hash rqs :
  sum_counts (select_roster (run hash rqs))
  = Z.of_nat (List.length (conversations (run hash rqs))).
Proof.
  destruct (run_store_ok hash rqs) as [Hid _ _ _ _ _ _ _ Hown _].
  unfold select_roster.
  rewrite (sum_counts_perm _ _ (sort_le_perm roster_le _)), sum_counts_roster.
  apply owned_sum_total; [|exact Hown].
  rewrite Hid. apply keys_upto_NoDup.
Qed.

(* ================================================================= *)
(** ** Callers who are not logged in *)

(** X20.  Without a logged-in user none of the protected routes serves
    anything: the three JSON routes, logout, the dashboard and both
    teacher pages send the caller to the login view, and neither the
    store nor the session changes. *)
Theorem anonymous_refused datetime d session :
  current_user d session = None ->
  (forall req, ini_session req = session ->
               api_initial d req = (Unauthorized, d))
  /\ (forall req, con_session req = session ->
                  api_continue d req = (Unauthorized, d))
  /\ api_my_history datetime d session = Unauthorized
  /\ logout d session = (LoginRequired, session)
  /\ dashboard d session = LoginRequired
  /\ teacher_panel d session = LoginRequired
  /\ (forall uid, teacher_user_view datetime d session uid = LoginRequired).
Proof.
  intros H. repeat split.
  - intros req <-. unfold api_initial, api_initial_with. now rewrite H.
  - intros req <-. unfold api_continue, api_continue_with. now rewrite H.
  - unfold api_my_history. now rewrite H.
  - unfold logout. now rewrite H.
  - unfold dashboard. now rewrite H.
  - unfold teacher_panel. now rewrite H.
  - intros uid. unfold teacher_user_view. now rewrite H.
Qed.

(* ================================================================= *)
(** ** The further theorems at work on the run *)

Import Story.

Example ex_story : run toy_hash story = two_owner_db.
Proof. vm_compute. reflexivity. Qed.

Lemma parse_data_url_round_trip_witness :
  parse_data_url (lit "data:image/png;base64,aGk=")
    = Ok (lit "image/png", lit "aGk=").
Proof.
  apply (parse_data_url_round_trip (lit "image/png") (lit "aGk=")).
  repeat split; cbn; intros H;
    repeat (destruct H as [H|H]; [discriminate H|]); exact H.
Defined.

Lemma api_continue_invalid_iff_witness :
  api_continue cat_db
    (continue_request_with 2 (JStr (lit "again"))
       (JStr (lit "image/png;base64,aGk=")))
  = (Json400 (lit "Invalid lastImage data URL"), cat_db).
Proof.
  apply (api_continue_invalid_iff cat_db
           (continue_request_with 2 (JStr (lit "again"))
              (JStr (lit "image/png;base64,aGk=")))
           _ _ (lit "again") (lit "image/png;base64,aGk=")
           eq_refl eq_refl eq_refl);
    [discriminate | reflexivity | discriminate |].
  intros [_ H]. vm_compute in H.
  repeat (destruct H as [H|H]; [discriminate H|]). exact H.
Defined.



Lemma api_continue_body_not_object_witness :
  api_continue cat_db (raw_continue 2 (JArr [JNum 1]))
    = (Crash AttributeError, cat_db)
  /\ api_continue cat_db (raw_continue 2 JNull)
     = (Json400 (lit "Missing prompt"), cat_db).
Proof.
  split.
  - apply (api_continue_body_not_object cat_db
             (raw_continue 2 (JArr [JNum 1])) _ _ eq_refl eq_refl).
    discriminate.
  - apply (api_continue_body_not_object cat_db
             (raw_continue 2 JNull) _ _ eq_refl eq_refl).
    discriminate.
Defined.

Lemma api_continue_field_types_witness :
  api_continue cat_db
    (continue_request_with 2 (JNum 7) (JStr cat_output))
    = (Crash AttributeError, cat_db)
  /\ api_continue cat_db
       (continue_request_with 2 (JStr (lit "again")) (JStr []))
     = (Json400 (lit "Missing lastImage (data URL)"), cat_db)
  /\ api_continue cat_db
       (continue_request_with 2 (JStr (lit "again")) (JArr [JStr cat_output]))
     = (Json400 (lit "Invalid lastImage data URL"), cat_db).
Proof.
  split; [|split].
  - destruct (api_continue_field_types cat_db
                (continue_request_with 2 (JNum 7) (JStr cat_output))
                _ _ eq_refl eq_refl eq_refl) as [H _].
    apply (H (JNum 7)); [reflexivity | reflexivity | discriminate].
  - destruct (api_continue_field_types cat_db
                (continue_request_with 2 (JStr (lit "again")) (JStr []))
                _ _ eq_refl eq_refl eq_refl) as [_ H].
    destruct (H (lit "again") (JStr [])) as [H' _];
      [reflexivity | discriminate | reflexivity |].
    apply H'. reflexivity.
  - destruct (api_continue_field_types cat_db
                (continue_request_with 2 (JStr (lit "again"))
                                       (JArr [JStr cat_output]))
                _ _ eq_refl eq_refl eq_refl) as [_ H].
    destruct (H (lit "again") (JArr [JStr cat_output])) as [_ H'];
      [reflexivity | discriminate | reflexivity |].
    apply H'; [reflexivity | discriminate].
Defined.

Lemma run_first_user_teacher_witness :
  exists r,
    hd_error (users (run toy_hash story)) = Some r
    /\ u_username r = lit "alice"
    /\ u_id r = 1%Z /\ u_is_teacher r = 1%Z.
Proof.
  eexists. split; [reflexivity|]. split; [reflexivity|].
  destruct (run_first_user_teacher toy_hash story _ eq_refl) as (Hi & Ht & _).
  split; [exact Hi | exact Ht].
Defined.

Lemma run_owner_exists_witness :
  exists c row,
    In c (conversations (run toy_hash story))
    /\ c_prompt c = lit "a house"
    /\ select_user_by_id (run toy_hash story) (c_user_id c) = Some row
    /\ u_id row = c_user_id c.
Proof.
  eexists.
  assert (In _ (conversations (run toy_hash story))) as Hin
      by (right; left; reflexivity).
  destruct (run_owner_exists toy_hash story _ Hin) as (row & Hs & Hid).
  exists row. split; [exact Hin|]. split; [reflexivity|].
  split; [exact Hs | exact Hid].
Defined.

Lemma login_after_register_witness :
  exists row,
    users bob_db = users alice_db ++ [row]
    /\ login toy_check bob_db (login_form None (lit " bob ") (lit "builder"))
       = (Go to_dashboard None, Some (u_id row))
    /\ u_id row = 2%Z.
Proof.
  exists {| u_id := 2; u_username := lit "bob";
            u_password_hash := lit "$2b$builder"; u_is_teacher := 0 |}.
  split; [reflexivity|].
  destruct (login_after_register toy_hash toy_check alice_db
              {| reg_method := POST;
                 reg_session := Some 1%Z;
                 form_username := Some (lit " bob ");
                 form_password := Some (lit "builder");
                 form_is_teacher := None |}
              (Redirect ep_teacher_panel (flash_created false)) bob_db
              {| u_id := 2; u_username := lit "bob";
                 u_password_hash := lit "$2b$builder"; u_is_teacher := 0 |}
              (login_form None (lit " bob ") (lit "builder")))
    as [Hlogin _].
  - intros p. unfold toy_check. apply str_eqb_refl.
  - exact (run_store_ok toy_hash [Register alice_form]).
  - reflexivity.
  - reflexivity.
  - reflexivity.
  - reflexivity.
  - reflexivity.
  - reflexivity.
  - split; [exact Hlogin | reflexivity].
Defined.

Lemma login_sound_witness :
  exists row,
    In row (users bob_db)
    /\ u_username row = lit "alice"
    /\ toy_check (u_password_hash row) (lit "wonderland") = true
    /\ login toy_check bob_db
         (login_form None (lit "alice") (lit "wonderland"))
       = (Go to_dashboard None, Some (u_id row)).
Proof.
  destruct (login_sound toy_check bob_db
              (login_form None (lit "alice") (lit "wonderland"))
              _ _ eq_refl)
    as (_ & _ & row & Hin & Hs & Hn & Hc); [discriminate|].
  exists row. split; [exact Hin|]. split; [exact Hn|]. split; [exact Hc|].
  injection Hs as <-. reflexivity.
Defined.

Example ex_login_wrong :
  login toy_check bob_db (login_form None (lit "alice") (lit "Wonderland"))
  = login toy_check bob_db (login_form None (lit "nobody") (lit "wonderland")).
Proof. reflexivity. Qed.

Lemma teacher_panel_roster_witness :
  exists rows,
    teacher_panel two_owner_db (Some 1%Z) = Page (teacher_html rows) None
    /\ Permutation rows
         (List.map (roster_entry two_owner_db) (users two_owner_db))
    /\ StronglySorted (fun a b => roster_le a b = true) rows
    /\ Forall (fun r => convo_count r
                        = count_conversations two_owner_db (ro_id r)) rows.
Proof.
  apply (teacher_panel_roster two_owner_db (Some 1%Z) _ eq_refl).
  reflexivity.
Defined.

Example ex_roster :
  List.map (fun r => (ro_username r, ro_is_teacher r, convo_count r))
           (select_roster two_owner_db)
  = [(lit "alice", 1%Z, 1%Z); (lit "bob", 0%Z, 2%Z)].
Proof. vm_compute. reflexivity. Qed.

Lemma teacher_pages_gate_witness :
  exists u,
    current_user two_owner_db (Some 1%Z) = Some u /\ is_teacher u = true.
Proof.
  apply (teacher_pages_gate toy_datetime two_owner_db (Some 1%Z) 2
           (teacher_html (select_roster two_owner_db)) None).
  left. reflexivity.
Defined.


Lemma conversation_counts_witness :
  count_conversations cat_db 2 = (count_conversations bob_db 2 + 1)%Z
  /\ count_conversations cat_db 1 = count_conversations bob_db 1.
Proof.
  split.
  - destruct (conversation_counts bob_db 2) as (H & _).
    exact (H cat_request _ _ _ eq_refl eq_refl).
  - destruct (conversation_counts bob_db 1) as (H & _).
    exact (H cat_request _ _ _ eq_refl eq_refl).
Defined.

Lemma history_after_turn_witness :
  exists h h',
    api_my_history toy_datetime bob_db (Some 2%Z) = Json200 h
    /\ api_my_history toy_datetime cat_db (Some 2%Z) = Json200 h'
    /\ List.length h' = S (List.length h).
Proof.
  destruct (history_after_turn toy_datetime bob_db (Some 2%Z) _ _ cat_db
              eq_refl
              (or_introl (ex_intro _ cat_request (conj eq_refl eq_refl))))
    as ((h & h' & Hh & Hh' & Hp) & _).
  exists h, h'. split; [exact Hh|]. split; [exact Hh'|].
  apply Permutation_length in Hp. exact Hp.
Defined.

Lemma anonymous_refused_witness :
  api_initial bob_db
    {| ini_session := None;
       files_sketch := Some (sketch (lit "image/png") ten_bytes);
       form_prompt := Some (lit "draw a cat");
       ini_utcnow := lit "2024-05-01T10:00:00" |}
  = (Unauthorized, bob_db)
  /\ teacher_panel bob_db None = LoginRequired.
Proof.
  destruct (anonymous_refused toy_datetime bob_db None eq_refl)
    as (Hi & _ & _ & _ & _ & Ht & _).
  split; [apply Hi; reflexivity | exact Ht].
Defined.
